(** * dash-vtk-cfd: the reactive callbacks of [app-seb-probing.py]

    A shallow embedding of the two Dash callbacks of the application,
    [update_scene] (field selection) and [probe_data] (hover probe), and of
    the small part of Python, Dash and VTK they rest on.

    - Python floats are IEEE binary64 numbers: Rocq's primitive floats. The
      C library's [pow], which [**] calls, is a parameter ([Py.Libm]).
    - Python exceptions are an error monad, [Py.result]; stdpp's [x ← m; k]
      is its bind.
    - Python dicts keyed by strings are [gmap string _]; the glyph state and
      the mapper, whose key sets are fixed by the source, are records of
      optional fields (a field is [None] when the key is not in the dict).
    - [dash.no_update] is the constructor [NoUpdate] of [Out].
    - VTK is outside the repository: a mesh is the data the callbacks read
      from it (points, point data arrays) together with its own locator
      [FindPoint], about which nothing is assumed.
    - [random.random()] is an argument of [update_scene]. *)

From Stdlib Require Import Floats ZArith Ascii.
From stdpp Require Import base strings list gmap pretty.

Set Warnings "-inexact-float".
Local Open Scope Z_scope.
Local Open Scope string_scope.

(** ** Python: exceptions and floats *)

Module Py.

Inductive exc : Set :=
| KeyError
| TypeError
| UnboundLocalError
| ZeroDivisionError
| OverflowError
| ComplexResult   (* float ** 0.5 on a negative base leaves the floats *)
| VtkRange.       (* a read outside a VTK array: outside VTK's contract *)

Inductive result (A : Type) : Type :=
| Return (a : A)
| Raise (e : exc).
Arguments Return {A} a.
Arguments Raise {A} e.

Definition bind {A B : Type} (m : result A) (k : A -> result B) : result B :=
  match m with
  | Return a => k a
  | Raise e => Raise e
  end.

(** A local variable that may not have been assigned yet. *)
Definition read_local {A : Type} (v : option A) : result A :=
  match v with
  | Some a => Return a
  | None => Raise UnboundLocalError
  end.

(** [for x in xs: st = body(x, st)], stopping at the first exception. *)
Fixpoint for_each {A S : Type} (body : A -> S -> result S) (xs : list A) (st : S)
  : result S :=
  match xs with
  | [] => Return st
  | x :: rest => bind (body x st) (for_each body rest)
  end.

(** [a * b], [a - b] and [a + b] on floats never raise. *)
Definition fmul (a b : float) : float := PrimFloat.mul a b.
Definition fsub (a b : float) : float := PrimFloat.sub a b.
Definition fadd (a b : float) : float := PrimFloat.add a b.

(** [a / b]: CPython's [float_div] raises on a zero divisor, of either sign. *)
Definition fdiv (a b : float) : result float :=
  if PrimFloat.eqb b 0%float then Raise ZeroDivisionError
  else Return (PrimFloat.div a b).

(** The C library's [pow], which CPython calls for [**] on floats once the
    special values are out of the way. It is accurate to about a unit in the
    last place and not correctly rounded, so nothing is assumed of it. *)
Class Libm : Type := { c_pow : float -> float -> float }.

(** [x ** 2] (CPython's [float_pow] with exponent 2.0): nan stays nan, an
    infinity becomes +inf, a zero becomes 0.0, a negative base is negated
    first, 1.0 stays 1.0; for the other bases the result is the C library's
    [pow(|x|, 2.0)], and [OverflowError] is raised if that is out of
    range. *)
Definition pow_2 `{Libm} (x : float) : result float :=
  if PrimFloat.is_nan x then Return x
  else if PrimFloat.is_infinity x then Return PrimFloat.infinity
  else if PrimFloat.is_zero x then Return 0%float
  else
    let iv := if PrimFloat.ltb x 0%float then PrimFloat.opp x else x in
    if PrimFloat.eqb iv 1%float then Return 1%float
    else
      let ix := c_pow iv 2%float in
      if PrimFloat.is_infinity ix then Raise OverflowError else Return ix.

(** [x ** 0.5] (CPython's [float_pow] with exponent 0.5): nan stays nan,
    an infinity becomes +inf, a zero becomes 0.0, a negative base gives a
    complex number (outside this model), 1.0 stays 1.0; for the other
    bases the result is the C library's [pow(x, 0.5)]. *)
Definition pow_half `{Libm} (x : float) : result float :=
  if PrimFloat.is_nan x then Return x
  else if PrimFloat.is_infinity x then Return PrimFloat.infinity
  else if PrimFloat.is_zero x then Return 0%float
  else if PrimFloat.ltb x 0%float then Raise ComplexResult
  else if PrimFloat.eqb x 1%float then Return 1%float
  else Return (c_pow x 0.5%float).

(** [f'{x:.2f}']: the exact binary value, rounded half-even to two decimals. *)
Definition two_digits (n : Z) : string :=
  (if (n <? 10)%Z then "0" else EmptyString) +:+ pretty n.

Definition round_half_even (num den : Z) : Z :=
  let q := num / den in
  let r := num mod den in
  if ((den <? 2 * r)%Z || ((den =? 2 * r)%Z && Z.odd q))%bool then (q + 1)%Z
  else q.

Definition format_2f (x : float) : string :=
  match Prim2SF x with
  | SpecFloat.S754_nan => "nan"
  | SpecFloat.S754_infinity s => if s then "-inf" else "inf"
  | SpecFloat.S754_zero s => if s then "-0.00" else "0.00"
  | SpecFloat.S754_finite s m e =>
      let hundredths :=
        if (0 <=? e)%Z then (Z.pos m * 2 ^ e * 100)%Z
        else round_half_even (Z.pos m * 100)%Z (2 ^ (- e))%Z in
      (if s then "-" else EmptyString) +:+ pretty (hundredths / 100) +:+ "."
        +:+ two_digits (hundredths mod 100)
  end.

(** The one-character string of a line feed. *)
Definition newline : string := String (Ascii.ascii_of_nat 10) EmptyString.

(** [sep.join(xs)] *)
Fixpoint join (sep : string) (xs : list string) : string :=
  match xs with
  | [] => EmptyString
  | [x] => x
  | x :: rest => x +:+ sep +:+ join sep rest
  end.

(** [needle in hay] on strings *)
Fixpoint contains (needle hay : string) : bool :=
  (String.prefix needle hay ||
   match hay with
   | EmptyString => false
   | String _ rest => contains needle rest
   end)%bool.

End Py.

#[export] Instance result_ret : MRet Py.result := @Py.Return.
#[export] Instance result_bind : MBind Py.result := fun A B k m => Py.bind m k.

(** ** Dash: callback outputs and JSON payloads *)

Module Dash.

(** What a callback emits for one output: a value, or [dash.no_update]. *)
Inductive Out (A : Type) : Type :=
| NoUpdate
| Val (a : A).
Arguments NoUpdate {A}.
Arguments Val {A} a.

Definition is_no_update {A : Type} (o : Out A) : bool :=
  match o with
  | NoUpdate => true
  | Val _ => false
  end.

(** The JSON values found in a [hoverInfo] payload. *)
Inductive JVal : Type :=
| JNull
| JStr (s : string)
| JVec (xs : list float).

(** One entry of [dash.callback_context.triggered]; [value] is [None] for
    JSON null. The values are those of a dropdown with string options:
    numbers, lists and objects are not modelled. *)
Record Trigger : Type := { prop_id : string; value : option string }.

End Dash.

(** ** VTK: what the callbacks read from a loaded mesh *)

Module Vtk.

Definition Vec3 : Type := float * float * float.

(** A typed data array: [GetName], [GetNumberOfComponents] and the flat
    buffer of values, [GetNumberOfComponents] of them per point. *)
Record DataArray : Type := {
  GetName : string;
  GetNumberOfComponents : Z;
  buffer : list float
}.

Definition read (buf : list float) (i : Z) : Py.result float :=
  if (i <? 0)%Z then Py.Raise Py.VtkRange
  else match buf !! Z.to_nat i with
       | Some x => Py.Return x
       | None => Py.Raise Py.VtkRange
       end.

(** [array.GetValue(idx)]: the entry of the flat buffer at [idx]. *)
Definition GetValue (a : DataArray) (idx : Z) : Py.result float :=
  read (buffer a) idx.

(** [array.GetTuple3(idx)]: the three components of point [idx]. *)
Definition GetTuple3 (a : DataArray) (idx : Z) : Py.result Vec3 :=
  x ← read (buffer a) (3 * idx);
  y ← read (buffer a) (3 * idx + 1);
  z ← read (buffer a) (3 * idx + 2);
  mret (x, y, z).

(** A poly data set. [FindPoint] is the mesh's own point locator: the id of
    the point closest to a position, or -1. [GetPointData] lists the arrays
    in the mesh's order ([GetArray(0)], [GetArray(1)], ...). *)
Record Mesh : Type := {
  FindPoint : Vec3 -> Z;
  GetPoints : list Vec3;
  GetPointData : list DataArray
}.

(** [mesh.GetPoints().GetPoint(idx)] *)
Definition GetPoint (m : Mesh) (idx : Z) : Py.result Vec3 :=
  if (idx <? 0)%Z then Py.Raise Py.VtkRange
  else match GetPoints m !! Z.to_nat idx with
       | Some p => Py.Return p
       | None => Py.Raise Py.VtkRange
       end.

(** [if mesh:]: a wrapped VTK object defines neither [__bool__] nor
    [__len__], so it is true. *)
Definition truthy (m : Mesh) : bool := true.

End Vtk.

Import Dash Vtk.

(** ** Field selection: [COLOR_RANGES] and [update_scene] *)

Definition COLOR_RANGES : gmap string (list Z) :=
  <["solid" := [0; 1]]> (<["U" := [0; 100]]> (<["p" := [-4464; 1700]]> ∅)).

(** The [mapper] property of a geometry representation. *)
Record Mapper : Type := {
  colorByArrayName : option string;
  scalarMode : option Z;
  interpolateScalarsBeforeMapping : option bool;
  scalarVisibility : option bool
}.

(** The values [update_scene] can emit. *)
Inductive SceneVal : Type :=
| Render (token : float)
| MapperVal (m : Mapper)
| RangeVal (r : list Z).

(** [COLOR_RANGES[key]]; JSON null is a key no dict of strings has. *)
Definition color_range_of (key : option string) : Py.result (list Z) :=
  match key with
  | Some name =>
      match COLOR_RANGES !! name with
      | Some r => Py.Return r
      | None => Py.Raise Py.KeyError
      end
  | None => Py.Raise Py.KeyError
  end.

(** [triggered[0]] when [triggered and "surfcolor" in
    triggered[0]["prop_id"]] holds. Dash's list for "nothing fired" holds the
    one entry with [prop_id] ".", which takes the same branch as []. *)
Definition surfcolor_event (triggered : list Trigger) : option Trigger :=
  match triggered with
  | t :: _ => if Py.contains "surfcolor" (prop_id t) then Some t else None
  | [] => None
  end.

(** [update_scene(surfcolor)]. [vehicle_vtk] holds the ids of the parts,
    [triggered] is [dash.callback_context.triggered], [rnd] the number that
    [random.random()] draws. The outputs are the render trigger, then one
    mapper per part, then one color range per part. *)
Definition update_scene (vehicle_vtk : list string) (triggered : list Trigger)
    (rnd : float) (surfcolor : option string) : Py.result (list (Out SceneVal)) :=
  '(surf_state, color_ranges) ←
    match surfcolor_event triggered with
    | Some t =>
        color_range ← color_range_of (value t);
        let mapper :=
          {| colorByArrayName := value t;
             scalarMode := Some 3%Z;
             interpolateScalarsBeforeMapping := Some true;
             scalarVisibility := Some true |} in
        let mapper :=
          if bool_decide (value t = Some "solid") then
            {| colorByArrayName := None;
               scalarMode := None;
               interpolateScalarsBeforeMapping := None;
               scalarVisibility := Some false |}
          else mapper in
        mret ((fun item => Val (MapperVal mapper)) <$> vehicle_vtk,
              (fun item => Val (RangeVal color_range)) <$> vehicle_vtk)
    | None =>
        mret ((fun item => NoUpdate) <$> vehicle_vtk,
              (fun item => NoUpdate) <$> vehicle_vtk)
    end;
  mret ([Val (Render rnd)] ++ surf_state ++ color_ranges)%list.

(** ** Hover probe: [probe_data] *)

Definition SCALE_P : float := 0.0001%float.
Definition SCALE_U : float := 0.01%float.

(** The state of the cone source, [cone_state]. *)
Record ConeState : Type := {
  resolution : Z;
  center : option Vec3;
  height : option float;
  direction : option Vec3;
  radius : option float
}.

Definition with_center (c : Vec3) (s : ConeState) : ConeState :=
  {| resolution := resolution s; center := Some c; height := height s;
     direction := direction s; radius := radius s |}.
Definition with_height (h : float) (s : ConeState) : ConeState :=
  {| resolution := resolution s; center := center s; height := Some h;
     direction := direction s; radius := radius s |}.
Definition with_direction (d : Vec3) (s : ConeState) : ConeState :=
  {| resolution := resolution s; center := center s; height := height s;
     direction := Some d; radius := radius s |}.
Definition with_radius (r : float) (s : ConeState) : ConeState :=
  {| resolution := resolution s; center := center s; height := height s;
     direction := direction s; radius := Some r |}.

(** [cone_state = { 'resolution': 12 }] *)
Definition initial_cone : ConeState :=
  {| resolution := 12; center := None; height := None; direction := None;
     radius := None |}.

(** ** Sample data *)

Module Sample.

Definition U_array : DataArray :=
  {| GetName := "U"; GetNumberOfComponents := 3;
     buffer := [3; 4; 0; 0; 0; 0]%float |}.
Definition p_array : DataArray :=
  {| GetName := "p"; GetNumberOfComponents := 1; buffer := [1000; 7]%float |}.
Definition k_array : DataArray :=
  {| GetName := "k"; GetNumberOfComponents := 1; buffer := [2.5; 1]%float |}.

(** Two points; the locator answers a fixed id. *)
Definition mesh_at (idx : Z) (arrays : list DataArray) : Mesh :=
  {| FindPoint := fun _ => idx;
     GetPoints := [(1, 2, 3); (4, 5, 6)]%float;
     GetPointData := arrays |}.

Definition empty_mesh : Mesh :=
  {| FindPoint := fun _ => (-1)%Z; GetPoints := []; GetPointData := [] |}.

Definition hover (part : string) : option (gmap string JVal) :=
  Some (<["representationId" := JStr part]>
        (<["worldPosition" := JVec [1; 2; 3]%float]> ∅)).

Definition cache (m : Mesh) : gmap string Mesh := <["body" := m]> ∅.

Definition selection (name : string) : list Trigger :=
  [ {| prop_id := "surfcolor.value"; value := Some name |} ].

(** A C library for the samples: its [pow] is correctly rounded for the
    exponents 2 and 0.5. The real one agrees with it wherever the exact
    result is a float, as it is in every sample below. *)
Definition rounded_libm : Py.Libm :=
  {| Py.c_pow x y :=
       if PrimFloat.eqb y 0.5 then PrimFloat.sqrt x else PrimFloat.mul x x |}.

End Sample.

Import Sample.

(** ** Start-up: [_load_vtp] and the loop that populates the scene *)

Module Str.

(** [s.split(sep)] for a separator of one character: the pieces between
    the separators, in order; never the empty list. *)
Fixpoint split (sep : Ascii.ascii) (s : string) : list string :=
  match s with
  | EmptyString => [EmptyString]
  | String c rest =>
      if Ascii.eqb c sep then EmptyString :: split sep rest
      else match split sep rest with
           | piece :: pieces => String c piece :: pieces
           | [] => [String c EmptyString]
           end
  end.

(** [s.replace(old, '')] for a non-empty [old]: the occurrences of [old]
    are removed from left to right, without overlap. [skip] counts the
    characters of the current occurrence that are still to be dropped. *)
Fixpoint remove_from (old : string) (skip : nat) (s : string) : string :=
  match s with
  | EmptyString => EmptyString
  | String c rest =>
      match skip with
      | S k => remove_from old k rest
      | O =>
          if String.prefix old s then remove_from old (String.length old - 1) rest
          else String c (remove_from old 0 rest)
      end
  end.

Definition remove_all (old : string) (s : string) : string :=
  remove_from old 0 s.

(** The character [c] occurs in [s]. *)
Fixpoint has_char (c : Ascii.ascii) (s : string) : bool :=
  match s with
  | EmptyString => false
  | String c' rest => (Ascii.eqb c' c || has_char c rest)%bool
  end.

End Str.

(** [filepath.split("/")[-1].replace(".vtp", "")]; the list of pieces is
    never empty, so the subscript cannot fail. *)
Definition part_name_of (filepath : string) : string :=
  Str.remove_all ".vtp" (default EmptyString (last (Str.split "/"%char filepath))).

Module Scene.

(** A [dash_vtk.GeometryRepresentation] of the vehicle, with the mesh state
    its [dash_vtk.Mesh] child carries. *)
Record GeometryRepresentation (MeshState : Type) : Type := {
  id : string;
  colorMapPreset : string;
  colorDataRange : list Z;
  mapper : Mapper;
  state : MeshState
}.
Arguments id {MeshState} _.
Arguments colorMapPreset {MeshState} _.
Arguments colorDataRange {MeshState} _.
Arguments mapper {MeshState} _.
Arguments state {MeshState} _.

End Scene.

Section Loading.

(** The mesh state sent to the browser, whatever [to_mesh_state] makes it. *)
Context {MeshState : Type}.

(** [reader.GetOutput()] after [SetFileName(filepath)] and [Update()]: the
    content of the file system. *)
Variable reader : string -> Mesh.

(** [dash_vtk.utils.to_mesh_state(dataset, fieldname, point_arrays,
    cell_arrays)] *)
Variable to_mesh_state :
  Mesh -> option string -> list string -> list string -> MeshState.

(** [_load_vtp(filepath, fieldname, point_arrays, cell_arrays)], with the
    global [vtk_datasets] threaded through. *)
Definition _load_vtp (filepath : string) (fieldname : option string)
    (point_arrays cell_arrays : list string) (vtk_datasets : gmap string Mesh)
  : gmap string Mesh * MeshState :=
  let output := reader filepath in
  let part_name := part_name_of filepath in
  (<[part_name := output]> vtk_datasets,
   to_mesh_state output fieldname point_arrays cell_arrays).

(** The body of the loop of lines 49-59, on the pair of [vtk_datasets] and
    [vehicle_vtk]. *)
Definition load_part
    (st : gmap string Mesh * list (Scene.GeometryRepresentation MeshState))
    (filename : string)
  : gmap string Mesh * list (Scene.GeometryRepresentation MeshState) :=
  let '(vtk_datasets, vehicle_vtk) := st in
  let '(vtk_datasets, mesh) :=
    _load_vtp filename None ["U"; "p"] [] vtk_datasets in
  let part_name := part_name_of filename in
  let child :=
    {| Scene.id := part_name;
       Scene.colorMapPreset := "erdc_rainbow_bright";
       Scene.colorDataRange := [0; 100];
       Scene.mapper := {| colorByArrayName := None; scalarMode := None;
                          interpolateScalarsBeforeMapping := None;
                          scalarVisibility := Some false |};
       Scene.state := mesh |} in
  (vtk_datasets, (vehicle_vtk ++ [child])%list).

(** Lines 24 and 48-59: from the empty cache and the empty list, one pass
    over the files that [glob.glob] lists. *)
Definition populate_scene (filenames : list string)
  : gmap string Mesh * list (Scene.GeometryRepresentation MeshState) :=
  foldl load_part (∅, []) filenames.

End Loading.

(** ** The probe, for any C library *)

Section Probe.

(** The C library the interpreter is linked with. *)
Context `{libm : Py.Libm}.

(** [(value[0] ** 2 + value[1] ** 2 + value[2] ** 2) ** 0.5] *)
Definition norm3 (v : Vec3) : Py.result float :=
  let '(v0, v1, v2) := v in
  a ← Py.pow_2 v0;
  b ← Py.pow_2 v1;
  c ← Py.pow_2 v2;
  Py.pow_half (Py.fadd (Py.fadd a b) c).

(** [[v / norm for v in value]] *)
Definition normalized (v : Vec3) (norm : float) : Py.result Vec3 :=
  let '(v0, v1, v2) := v in
  d0 ← Py.fdiv v0 norm;
  d1 ← Py.fdiv v1 norm;
  d2 ← Py.fdiv v2 norm;
  mret (d0, d1, d2).

(** The body of the loop over the point data arrays (lines 193-211), on
    the pair of [cone_state] and [messages]. *)
Definition probe_array (idx : Z) (array : DataArray)
    (st : ConeState * list string) : Py.result (ConeState * list string) :=
  let '(cone_state, messages) := st in
  let name := GetName array in
  let nb_comp := GetNumberOfComponents array in
  value ← GetValue array idx;
  shown ← GetValue array idx;
  let value_str := Py.format_2f shown in
  let norm_str := EmptyString in
  '(cone_state, value_str, norm_str) ←
    (if (nb_comp =? 3)%Z then
       value ← GetTuple3 array idx;
       norm ← norm3 value;
       let norm_str := " norm(" +:+ Py.format_2f norm +:+ ")" in
       let value_str :=
         Py.join ", " (Py.format_2f <$> [value.1.1; value.1.2; value.2]) in
       let cone_state := with_height (Py.fmul SCALE_U norm) cone_state in
       dir ← normalized value norm;
       let cone_state := with_direction dir cone_state in
       mret (cone_state, value_str, norm_str)
     else mret (cone_state, value_str, norm_str));
  cone_state ←
    (if bool_decide (name = "p") then
       p ← GetValue array idx;
       mret (with_radius (Py.fmul p SCALE_P) cone_state)
     else mret cone_state);
  mret (cone_state,
        (messages ++ [name +:+ ": " +:+ value_str +:+ " " +:+ norm_str])%list).

(** Lines 213-217: move the center back by half the height along the
    direction, [new_center[i] -= 0.5 * height * direction[i]]. *)
Definition recenter (cone_state : ConeState) : Py.result ConeState :=
  match height cone_state with
  | Some h =>
      match center cone_state, direction cone_state with
      | Some (c0, c1, c2), Some (d0, d1, d2) =>
          let new_center :=
            (Py.fsub c0 (Py.fmul (Py.fmul 0.5 h) d0),
             Py.fsub c1 (Py.fmul (Py.fmul 0.5 h) d1),
             Py.fsub c2 (Py.fmul (Py.fmul 0.5 h) d2)) in
          mret (with_center new_center cone_state)
      | _, _ => Py.Raise Py.KeyError
      end
  | None => mret cone_state
  end.

(** [if info:] is false for [None] and for the empty dict. *)
Definition truthy_info (info : option (gmap string JVal))
  : option (gmap string JVal) :=
  match info with
  | Some d => if (size d =? 0)%nat then None else Some d
  | None => None
  end.

(** [vtk_datasets[ds_name]]: the keys of the cache are strings; null is
    hashable and absent, a list is not hashable. *)
Definition dataset_of (vtk_datasets : gmap string Mesh) (ds_name : JVal)
  : Py.result Mesh :=
  match ds_name with
  | JStr name =>
      match vtk_datasets !! name with
      | Some mesh => Py.Return mesh
      | None => Py.Raise Py.KeyError
      end
  | JNull => Py.Raise Py.KeyError
  | JVec _ => Py.Raise Py.TypeError
  end.

(** [info['worldPosition']], then the conversion [FindPoint] makes of its
    argument to three doubles. *)
Definition world_position (d : gmap string JVal) : Py.result Vec3 :=
  match d !! "worldPosition" with
  | None => Py.Raise Py.KeyError
  | Some (JVec [x; y; z]) => Py.Return (x, y, z)
  | Some _ => Py.Raise Py.TypeError
  end.

(** Lines 187-211: the readout at the point the locator answered. The
    second component is the local variable [messages], [None] while it is
    unassigned. *)
Definition probe_point (mesh : Mesh) (idx : Z) (cone_state : ConeState)
  : Py.result (ConeState * option (list string)) :=
  if (idx >? -1)%Z then
    point ← GetPoint mesh idx;
    let cone_state := with_center point cone_state in
    '(cone_state, messages) ←
      Py.for_each (probe_array idx) (GetPointData mesh) (cone_state, []);
    mret (cone_state, Some messages)
  else mret (cone_state, None).

(** Lines 185-211: the probe of one mesh. *)
Definition probe_mesh (d : gmap string JVal) (mesh : Mesh) (cone_state : ConeState)
  : Py.result (ConeState * option (list string)) :=
  xyx ← world_position d;
  let idx := FindPoint mesh xyx in
  probe_point mesh idx cone_state.

(** [probe_data(info)], with the cache [vtk_datasets] made explicit. [info]
    is [None] for JSON null. The result pairs the tooltip children with the
    state of the pointer. *)
Definition probe_data (vtk_datasets : gmap string Mesh)
    (info : option (gmap string JVal))
  : Py.result (Out (list string) * Out ConeState) :=
  let cone_state := initial_cone in
  match truthy_info info with
  | Some d =>
      match d !! "representationId" with
      | None => mret (NoUpdate, NoUpdate)
      | Some ds_name =>
          mesh ← dataset_of vtk_datasets ds_name;
          '(cone_state, messages) ←
            (if truthy mesh then probe_mesh d mesh cone_state
             else mret (cone_state, None));
          cone_state ← recenter cone_state;
          messages ← Py.read_local messages;
          mret (Val [Py.join Py.newline messages], Val cone_state)
      end
  | None => mret (Val [EmptyString], Val cone_state)
  end.

(** ** What the probe reads: the mesh and the point a hover event resolves to *)

(** Lines 182-186: the cached mesh of the hovered part and the id its
    locator answers, when the event is true, names a cached part and
    carries a position. *)
Definition locate (vtk_datasets : gmap string Mesh)
    (info : option (gmap string JVal)) : option (Mesh * Z) :=
  match truthy_info info with
  | Some d =>
      match d !! "representationId", world_position d with
      | Some (JStr name), Py.Return xyx =>
          match vtk_datasets !! name with
          | Some mesh => Some (mesh, FindPoint mesh xyx)
          | None => None
          end
      | _, _ => None
      end
  | None => None
  end.

Definition is_vector3 (a : DataArray) : bool :=
  (GetNumberOfComponents a =? 3)%Z.

Definition named_p (a : DataArray) : bool := bool_decide (GetName a = "p").

(** The last array of a list that satisfies a test. *)
Definition last_such (test : DataArray -> bool) (arrays : list DataArray)
  : option DataArray :=
  last (filter (fun a => test a = true) arrays).

(** A vector with each component divided by [n], in IEEE arithmetic. *)
Definition scaled_down (v : Vec3) (n : float) : Vec3 :=
  (PrimFloat.div v.1.1 n, PrimFloat.div v.1.2 n, PrimFloat.div v.2 n).

(** A point moved back by half of [h] along [d]. *)
Definition moved_back (c : Vec3) (h : float) (d : Vec3) : Vec3 :=
  (Py.fsub c.1.1 (Py.fmul (Py.fmul 0.5 h) d.1.1),
   Py.fsub c.1.2 (Py.fmul (Py.fmul 0.5 h) d.1.2),
   Py.fsub c.2 (Py.fmul (Py.fmul 0.5 h) d.2)).

(** The glyph shows the vector of array [a] at point [idx]. *)
Definition shows_vector (idx : Z) (a : DataArray) (cs : ConeState) : Prop :=
  exists v n,
    GetTuple3 a idx = Py.Return v /\ norm3 v = Py.Return n /\
    PrimFloat.eqb n 0 = false /\
    height cs = Some (Py.fmul SCALE_U n) /\
    direction cs = Some (scaled_down v n).

(** The glyph shows the value of array [a] at index [idx] as its radius. *)
Definition shows_radius (idx : Z) (a : DataArray) (cs : ConeState) : Prop :=
  exists x, GetValue a idx = Py.Return x /\ radius cs = Some (Py.fmul x SCALE_P).

(** What the glyph shows of the vector arrays seen so far. *)
Definition vector_part (idx : Z) (arrays : list DataArray) (cs0 cs : ConeState)
  : Prop :=
  match last_such is_vector3 arrays with
  | Some a => shows_vector idx a cs
  | None => height cs = height cs0 /\ direction cs = direction cs0
  end.

(** What the glyph shows of the arrays named "p" seen so far. *)
Definition radius_part (idx : Z) (arrays : list DataArray) (cs0 cs : ConeState)
  : Prop :=
  match last_such named_p arrays with
  | Some a => shows_radius idx a cs
  | None => radius cs = radius cs0
  end.

(** Lines 187-219 for a located point. *)
Definition probe_located (mesh : Mesh) (idx : Z)
  : Py.result (Out (list string) * Out ConeState) :=
  '(cone_state, messages) ← probe_point mesh idx initial_cone;
  cone_state ← recenter cone_state;
  messages ← Py.read_local messages;
  mret (Val [Py.join Py.newline messages], Val cone_state).

(** Representation [rep] is the one the loop builds for file [f]. *)
Definition built_from {MeshState : Type} (reader : string -> Mesh)
    (to_mesh_state : Mesh -> option string -> list string -> list string
                     -> MeshState)
    (f : string) (rep : Scene.GeometryRepresentation MeshState) : Prop :=
  Scene.id rep = part_name_of f /\
  Scene.state rep = to_mesh_state (reader f) None ["U"; "p"] [] /\
  Scene.colorDataRange rep = [0; 100] /\
  Scene.mapper rep
  = {| colorByArrayName := None; scalarMode := None;
       interpolateScalarsBeforeMapping := None;
       scalarVisibility := Some false |}.

(** The files of a list whose part name is [name], in order. *)
Definition files_named (name : string) (filenames : list string) : list string :=
  filter (fun f => part_name_of f = name) filenames.

(** Some component of [v] is a NaN. *)
Definition has_nan (v : Vec3) : bool :=
  (PrimFloat.is_nan v.1.1 || PrimFloat.is_nan v.1.2 || PrimFloat.is_nan v.2)%bool.

(** Lines 133-135: the outputs [update_scene] is registered for, as pairs
    of a component id and a property. *)
Definition scene_outputs (ids : list string) : list (string * string) :=
  ([("vtk-view", "triggerRender")]
   ++ ((fun item => (item, "mapper")) <$> ids)
   ++ ((fun item => (item, "colorDataRange")) <$> ids))%list.

(** An emitted value fits the property it is emitted for. *)
Definition fits (output : string * string) (out : Out SceneVal) : Prop :=
  match out with
  | NoUpdate => output.2 = "mapper" \/ output.2 = "colorDataRange"
  | Val (Render _) => output.2 = "triggerRender"
  | Val (MapperVal _) => output.2 = "mapper"
  | Val (RangeVal _) => output.2 = "colorDataRange"
  end.

(** Follows the claims' words: [n] is the Euclidean norm of [v] in
    Python's float arithmetic, the sum of the squares of the three
    components, added from left to right, to the power one half. *)
Definition euclidean_norm (v : Vec3) (n : float) : Prop :=
  exists a b c,
    Py.pow_2 v.1.1 = Py.Return a /\ Py.pow_2 v.1.2 = Py.Return b /\
    Py.pow_2 v.2 = Py.Return c /\
    Py.pow_half (PrimFloat.add (PrimFloat.add a b) c) = Py.Return n.

(** The line of the tooltip that shows array [a] at index [idx]. *)
Definition shows_message (idx : Z) (a : DataArray) (message : string) : Prop :=
  exists x,
    GetValue a idx = Py.Return x /\
    if is_vector3 a then
      exists v n,
        GetTuple3 a idx = Py.Return v /\ euclidean_norm v n /\
        message
        = GetName a +:+ ": "
          +:+ (Py.format_2f v.1.1 +:+ ", " +:+ Py.format_2f v.1.2 +:+ ", "
               +:+ Py.format_2f v.2)
          +:+ " " +:+ (" norm(" +:+ Py.format_2f n +:+ ")")
    else message = GetName a +:+ ": " +:+ Py.format_2f x +:+ " ".

(** Array [a] can be read at index [idx], and if it has three components
    its norm there is computed and is not zero. *)
Definition readable (idx : Z) (a : DataArray) : bool :=
  match GetValue a idx with
  | Py.Return _ =>
      if is_vector3 a then
        match GetTuple3 a idx with
        | Py.Return v =>
            match norm3 v with
            | Py.Return n => negb (PrimFloat.eqb n 0)
            | Py.Raise _ => false
            end
        | Py.Raise _ => false
        end
      else true
  | Py.Raise _ => false
  end.

(** ** The callbacks on the sample data *)

Example format_2f_samples :
  Py.format_2f 5 = "5.00" /\ Py.format_2f 0.125 = "0.12" /\
  Py.format_2f 1234.567 = "1234.57" /\ Py.format_2f (-0.001) = "-0.00".
Proof. repeat split; reflexivity. Qed.

Example update_scene_sample :
  update_scene ["body"; "wheel"] (selection "U") 0.5 (Some "U")
  = Py.Return
      (let mapper :=
         {| colorByArrayName := Some "U"; scalarMode := Some 3;
            interpolateScalarsBeforeMapping := Some true;
            scalarVisibility := Some true |} in
       [Val (Render 0.5); Val (MapperVal mapper); Val (MapperVal mapper);
        Val (RangeVal [0; 100]); Val (RangeVal [0; 100])]).
Proof. reflexivity. Qed.

(** A cleared dropdown sends null, which [COLOR_RANGES] does not have. *)
Example update_scene_null_value :
  update_scene ["body"] [ {| prop_id := "surfcolor.value"; value := None |} ]
    0.5 None
  = Py.Raise Py.KeyError.
Proof. reflexivity. Qed.

(** ** The error monad *)

Section Monad.
Context {A B : Type}.

Lemma bind_Return (m : Py.result A) (k : A -> Py.result B) (b : B) :
  m ≫= k = Py.Return b -> exists a, m = Py.Return a /\ k a = Py.Return b.
Proof. destruct m as [a|e]; [eauto | discriminate]. Qed.

End Monad.

Lemma for_each_app {A S : Type} (body : A -> S -> Py.result S) (xs ys : list A)
    (st : S) :
  Py.for_each body (xs ++ ys) st = Py.for_each body xs st ≫= Py.for_each body ys.
Proof.
  revert st. induction xs as [|x xs IH]; intros st; simpl; [done|].
  destruct (body x st) as [st'|e]; simpl; [apply IH | done].
Qed.

Tactic Notation "bind_inv" hyp(H) "as" ident(x) ident(Hx) :=
  apply bind_Return in H; destruct H as (x & Hx & H).

(** ** The norm *)

Lemma norm3_euclidean (v : Vec3) (n : float) :
  norm3 v = Py.Return n <-> euclidean_norm v n.
Proof.
  destruct v as [[v0 v1] v2]. unfold norm3, euclidean_norm, Py.fadd.
  cbn [fst snd]. split.
  - intros H. bind_inv H as a Ha. bind_inv H as b Hb. bind_inv H as c Hc.
    by exists a, b, c.
  - intros (a & b & c & Ha & Hb & Hc & H). by rewrite Ha, Hb, Hc.
Qed.

(** The norm of (3, 4, 0), for a C library whose [pow] is exact on the two
    squares and on the root of 25. *)
Lemma norm3_3_4_0 :
  Py.c_pow 3 2 = 9%float -> Py.c_pow 4 2 = 16%float ->
  Py.c_pow 25 0.5 = 5%float ->
  norm3 (3, 4, 0)%float = Py.Return 5%float.
Proof.
  intros H3 H4 H25. unfold norm3, Py.pow_2, Py.pow_half, Py.fadd. cbn.
  rewrite H3. cbn. rewrite H4. cbn. rewrite H25. reflexivity.
Qed.

(** ** One pass of the loop *)

Lemma normalized_Return (v : Vec3) (n : float) (dir : Vec3) :
  normalized v n = Py.Return dir ->
  PrimFloat.eqb n 0 = false /\ dir = scaled_down v n.
Proof.
  destruct v as [[v0 v1] v2]. unfold normalized, Py.fdiv, scaled_down.
  destruct (PrimFloat.eqb n 0); simpl; [discriminate|].
  intros [= <-]. done.
Qed.

Lemma normalized_zero (v : Vec3) (n : float) :
  PrimFloat.eqb n 0 = true -> normalized v n = Py.Raise Py.ZeroDivisionError.
Proof.
  destruct v as [[v0 v1] v2]. unfold normalized, Py.fdiv. now intros ->.
Qed.

Lemma probe_array_fields (idx : Z) (a : DataArray) (cs cs' : ConeState)
    (msgs msgs' : list string) :
  probe_array idx a (cs, msgs) = Py.Return (cs', msgs') ->
  resolution cs' = resolution cs /\ center cs' = center cs /\
  (if is_vector3 a then shows_vector idx a cs'
   else height cs' = height cs /\ direction cs' = direction cs) /\
  (if named_p a then shows_radius idx a cs' else radius cs' = radius cs) /\
  length msgs' = S (length msgs).
Proof.
  unfold probe_array, is_vector3, named_p, shows_vector, shows_radius.
  intros H.
  bind_inv H as value Hvalue. bind_inv H as shown Hshown.
  bind_inv H as st1 H1. destruct st1 as [[cs1 vs] ns].
  bind_inv H as cs2 H2. injection H as <- <-.
  assert (resolution cs1 = resolution cs /\ center cs1 = center cs /\
          radius cs1 = radius cs /\
          if (GetNumberOfComponents a =? 3)%Z
          then exists v n, GetTuple3 a idx = Py.Return v /\
                 norm3 v = Py.Return n /\ PrimFloat.eqb n 0 = false /\
                 height cs1 = Some (Py.fmul SCALE_U n) /\
                 direction cs1 = Some (scaled_down v n)
          else height cs1 = height cs /\ direction cs1 = direction cs)
    as (Hres & Hcen & Hrad & Hvec).
  { destruct (GetNumberOfComponents a =? 3)%Z.
    - bind_inv H1 as v Hv. bind_inv H1 as n Hn. bind_inv H1 as dir Hdir.
      injection H1 as <- _ _.
      apply normalized_Return in Hdir as [Hnz ->].
      repeat split; try done. by exists v, n.
    - injection H1 as <- _ _. done. }
  assert (length (msgs ++ [GetName a +:+ ": " +:+ vs +:+ " " +:+ ns])
          = S (length msgs)) as Hlen
    by (rewrite length_app; simpl; lia).
  destruct (bool_decide (GetName a = "p")).
  - bind_inv H2 as x Hx. injection H2 as <-. simpl.
    split; [done|]. split; [done|]. split; [|split; [by exists x | done]].
    destruct (GetNumberOfComponents a =? 3)%Z; done.
  - injection H2 as <-.
    split; [done|]. split; [done|]. split; [|done].
    destruct (GetNumberOfComponents a =? 3)%Z; done.
Qed.

(** ** The whole loop *)

Lemma last_such_snoc (test : DataArray -> bool) (arrays : list DataArray)
    (a : DataArray) :
  last_such test (arrays ++ [a])
  = if test a then Some a else last_such test arrays.
Proof.
  unfold last_such. rewrite filter_app. cbn.
  destruct (test a); case_decide; try done.
  - apply last_snoc.
  - by rewrite app_nil_r.
Qed.

Lemma probe_loop_fields (idx : Z) (arrays : list DataArray) :
  forall (cs cs' : ConeState) (msgs msgs' : list string),
    Py.for_each (probe_array idx) arrays (cs, msgs) = Py.Return (cs', msgs') ->
    resolution cs' = resolution cs /\ center cs' = center cs /\
    vector_part idx arrays cs cs' /\ radius_part idx arrays cs cs' /\
    length msgs' = (length msgs + length arrays)%nat.
Proof.
  unfold vector_part, radius_part.
  induction arrays as [|a arrays IH] using rev_ind; intros cs cs' msgs msgs' H.
  - injection H as <- <-. cbn. repeat split; lia.
  - rewrite for_each_app in H. bind_inv H as st Hpre.
    destruct st as [cs1 msgs1].
    apply IH in Hpre as (Hres & Hcen & Hvec & Hrad & Hlen).
    cbn in H. bind_inv H as st Hstep. injection H as ->.
    apply probe_array_fields in Hstep as (Hres' & Hcen' & Hvec' & Hrad' & Hlen').
    rewrite !last_such_snoc, length_app. cbn.
    split; [congruence|]. split; [congruence|].
    split; [|split; [|lia]].
    + destruct (is_vector3 a); [done|]. destruct Hvec' as [Hh Hd].
      destruct (last_such is_vector3 arrays).
      * destruct Hvec as (v & n & ? & ? & ? & ? & ?).
        exists v, n. repeat split; congruence.
      * split; [destruct Hvec|destruct Hvec]; congruence.
    + destruct (named_p a); [done|].
      destruct (last_such named_p arrays).
      * destruct Hrad as (x & ? & ?). exists x. split; congruence.
      * congruence.
Qed.

(** ** From the hover event to the glyph *)

Lemma locate_inv (vtk_datasets : gmap string Mesh)
    (info : option (gmap string JVal)) (mesh : Mesh) (idx : Z) :
  locate vtk_datasets info = Some (mesh, idx) ->
  exists d name xyx,
    truthy_info info = Some d /\ d !! "representationId" = Some (JStr name) /\
    vtk_datasets !! name = Some mesh /\ world_position d = Py.Return xyx /\
    FindPoint mesh xyx = idx.
Proof.
  unfold locate. intros H.
  destruct (truthy_info info) as [d|]; [|discriminate].
  destruct (d !! "representationId") as [[|name|]|] eqn:Hid; try discriminate.
  destruct (world_position d) as [xyx|] eqn:Hxyx; [|discriminate].
  destruct (vtk_datasets !! name) as [m|] eqn:Hm; [|discriminate].
  injection H as -> <-. exists d, name, xyx. repeat split; done.
Qed.

Lemma probe_data_located (vtk_datasets : gmap string Mesh)
    (info : option (gmap string JVal)) (mesh : Mesh) (idx : Z) :
  locate vtk_datasets info = Some (mesh, idx) ->
  probe_data vtk_datasets info = probe_located mesh idx.
Proof.
  intros H. apply locate_inv in H as (d & name & xyx & Hd & Hid & Hm & Hxyx & <-).
  unfold probe_data, probe_located. rewrite Hd, Hid. cbn. rewrite Hm. cbn.
  unfold probe_mesh. rewrite Hxyx. done.
Qed.

Lemma recenter_fields (cs cs' : ConeState) :
  recenter cs = Py.Return cs' ->
  resolution cs' = resolution cs /\ height cs' = height cs /\
  direction cs' = direction cs /\ radius cs' = radius cs /\
  match height cs with
  | Some h =>
      exists c d, center cs = Some c /\ direction cs = Some d /\
                  center cs' = Some (moved_back c h d)
  | None => center cs' = center cs
  end.
Proof.
  unfold recenter. destruct (height cs) as [h|] eqn:Hh.
  - destruct (center cs) as [[[c0 c1] c2]|]; [|discriminate].
    destruct (direction cs) as [[[d0 d1] d2]|] eqn:Hd; [|discriminate].
    intros [= <-]. cbn. repeat split; try done.
    by exists (c0, c1, c2), (d0, d1, d2).
  - intros [= <-]. done.
Qed.

(** A probe that returns went through every step. *)
Lemma probe_located_Return (mesh : Mesh) (idx : Z) (tooltip : Out (list string))
    (cone : Out ConeState) :
  probe_located mesh idx = Py.Return (tooltip, cone) ->
  exists point cs msgs cs',
    (idx >? -1)%Z = true /\ GetPoint mesh idx = Py.Return point /\
    Py.for_each (probe_array idx) (GetPointData mesh)
      (with_center point initial_cone, []) = Py.Return (cs, msgs) /\
    recenter cs = Py.Return cs' /\
    tooltip = Val [Py.join Py.newline msgs] /\ cone = Val cs'.
Proof.
  unfold probe_located, probe_point. intros H.
  bind_inv H as st Hst. destruct st as [cs omsgs].
  bind_inv H as cs' Hcs'. bind_inv H as msgs Hmsgs. injection H as <- <-.
  destruct (idx >? -1)%Z; [|injection Hst as <- <-; discriminate].
  bind_inv Hst as point Hpoint. bind_inv Hst as st Hloop.
  destruct st as [cs1 msgs1]. injection Hst as -> <-.
  injection Hmsgs as ->.
  by exists point, cs, msgs, cs'.
Qed.

(** The glyph of a probe that returns, field by field. *)
Lemma probe_located_glyph (mesh : Mesh) (idx : Z) (tooltip : Out (list string))
    (cone : ConeState) :
  probe_located mesh idx = Py.Return (tooltip, Val cone) ->
  exists point,
    GetPoint mesh idx = Py.Return point /\
    resolution cone = 12 /\
    match last_such is_vector3 (GetPointData mesh) with
    | Some a =>
        shows_vector idx a cone /\
        exists h d, height cone = Some h /\ direction cone = Some d /\
                    center cone = Some (moved_back point h d)
    | None =>
        height cone = None /\ direction cone = None /\ center cone = Some point
    end /\
    match last_such named_p (GetPointData mesh) with
    | Some a => shows_radius idx a cone
    | None => radius cone = None
    end.
Proof.
  intros H.
  apply probe_located_Return in H
    as (point & cs & msgs & cs' & _ & Hpoint & Hloop & Hrec & _ & [= <-]).
  apply probe_loop_fields in Hloop as (Hres & Hcen & Hvec & Hrad & _).
  apply recenter_fields in Hrec as (Hres' & Hh & Hd & Hr & Hc).
  unfold vector_part, radius_part in *. cbn in Hres, Hcen, Hvec, Hrad.
  exists point. split; [done|]. split; [congruence|]. split.
  - destruct (last_such is_vector3 (GetPointData mesh)) as [a|].
    + destruct Hvec as (v & n & Hv & Hn & Hnz & Hhv & Hdv).
      split.
      * exists v, n. repeat split; congruence.
      * rewrite Hhv in Hc. destruct Hc as (c & d & Hc1 & Hc2 & Hc3).
        exists (Py.fmul SCALE_U n), d. repeat split; congruence.
    + destruct Hvec as [Hhv Hdv]. rewrite Hhv in Hc.
      repeat split; congruence.
  - destruct (last_such named_p (GetPointData mesh)) as [a|].
    + destruct Hrad as (x & ? & ?). exists x. split; congruence.
    + congruence.
Qed.

(** ** Hover events that resolve to no point *)

(** C1 (as the code behaves). A hover event that names a part which is not
    a key of [vtk_datasets] makes [probe_data] raise [KeyError]: the
    subscript [vtk_datasets[ds_name]] is evaluated before the test
    [if mesh:], so the callback does not resolve to "no probe". *)
Theorem unknown_part_raises_KeyError (vtk_datasets : gmap string Mesh)
    (info : option (gmap string JVal)) (d : gmap string JVal) (name : string) :
  truthy_info info = Some d ->
  d !! "representationId" = Some (JStr name) ->
  vtk_datasets !! name = None ->
  probe_data vtk_datasets info = Py.Raise Py.KeyError.
Proof.
  intros Hd Hid Hm. unfold probe_data. rewrite Hd, Hid. cbn. by rewrite Hm.
Qed.

(** C2 (as the code behaves). When the locator of the cached mesh answers
    -1, the branch that assigns [messages] is skipped and the final
    [return] reads the unassigned local: [probe_data] raises
    [UnboundLocalError] instead of returning the "no probe" result. *)
Theorem point_not_found_raises_UnboundLocalError
    (vtk_datasets : gmap string Mesh) (info : option (gmap string JVal))
    (mesh : Mesh) :
  locate vtk_datasets info = Some (mesh, (-1)%Z) ->
  probe_data vtk_datasets info = Py.Raise Py.UnboundLocalError.
Proof. intros H. by rewrite (probe_data_located _ _ _ _ H). Qed.

(** C9. An absent hover event ([info] is [None]) gives the tooltip [['']]
    and the glyph state that holds the resolution 12 and nothing else. *)
Theorem absent_hover_no_probe (vtk_datasets : gmap string Mesh) :
  probe_data vtk_datasets None
  = Py.Return (Val [EmptyString],
               Val {| resolution := 12; center := None; height := None;
                      direction := None; radius := None |}).
Proof. reflexivity. Qed.

(** C10 (amended). A hover payload that is not empty and has no
    'representationId' key makes the callback emit the no-update signal for
    both outputs, which differs from the "no probe" result of an absent
    event. *)
Theorem no_part_identity_no_update (vtk_datasets : gmap string Mesh)
    (d : gmap string JVal) :
  size d <> 0%nat ->
  d !! "representationId" = None ->
  probe_data vtk_datasets (Some d) = Py.Return (NoUpdate, NoUpdate) /\
  probe_data vtk_datasets (Some d) <> probe_data vtk_datasets None.
Proof.
  intros Hsize Hid.
  assert (probe_data vtk_datasets (Some d) = Py.Return (NoUpdate, NoUpdate))
    as ->.
  { unfold probe_data, truthy_info.
    destruct (Nat.eqb_spec (size d) 0) as [E|_]; [done|]. by rewrite Hid. }
  split; [done | discriminate].
Qed.

(** ** Field selection *)

Lemma broadcast {A B : Type} (parts : list A) (y : B) :
  (fun item => y) <$> parts = replicate (length parts) y.
Proof. by apply const_fmap. Qed.

Lemma color_ranges_table :
  COLOR_RANGES !! "solid" = Some [0; 1] /\
  COLOR_RANGES !! "U" = Some [0; 100] /\
  COLOR_RANGES !! "p" = Some [-4464; 1700].
Proof. repeat split; vm_compute; reflexivity. Qed.

(** C3 (as stated) fails: an event of the surfcolor input that carries the
    value already selected is answered with recomputed mapper and range
    values and a fresh render token, none of them the no-update signal. *)
Lemma same_selection_is_recomputed :
  update_scene ["body"] (selection "solid") 0.5 (Some "solid")
  = Py.Return
      [Val (Render 0.5);
       Val (MapperVal {| colorByArrayName := None; scalarMode := None;
                         interpolateScalarsBeforeMapping := None;
                         scalarVisibility := Some false |});
       Val (RangeVal [0; 1])] /\
  forall outs,
    update_scene ["body"] (selection "solid") 0.5 (Some "solid")
    = Py.Return outs ->
    existsb is_no_update outs = false.
Proof.
  split; [reflexivity|]. intros outs [= <-]. reflexivity.
Qed.

(** C3 (amended). When the callback was not fired by the surfcolor input
    (the trigger list is empty, or the prop id of its first entry does not
    contain "surfcolor"), every mapper output and every color-range output
    is the no-update signal; the render trigger is the drawn random number
    all the same. *)
Theorem not_fired_by_surfcolor_no_update (vehicle_vtk : list string)
    (triggered : list Trigger) (rnd : float) (surfcolor : option string) :
  surfcolor_event triggered = None ->
  update_scene vehicle_vtk triggered rnd surfcolor
  = Py.Return (Val (Render rnd)
               :: replicate (length vehicle_vtk) NoUpdate
               ++ replicate (length vehicle_vtk) NoUpdate).
Proof.
  intros H. unfold update_scene. rewrite H. cbn. by rewrite !broadcast.
Qed.

Lemma not_fired_by_surfcolor_no_update_witness :
  update_scene ["body"; "wheel"] [ {| prop_id := "."; value := None |} ] 0.25
    (Some "solid")
  = Py.Return [Val (Render 0.25); NoUpdate; NoUpdate; NoUpdate; NoUpdate].
Proof.
  apply (not_fired_by_surfcolor_no_update ["body"; "wheel"]
           [ {| prop_id := "."; value := None |} ] 0.25 (Some "solid")).
  reflexivity.
Defined.

(** C7. An event of the surfcolor input whose value is one of "solid", "U"
    and "p" emits one mapper and one range, the same for every part. For
    "solid" the mapper only switches scalar visibility off and the range is
    [0, 1]; for "U" and "p" the mapper colors by that array with scalar
    mode 3 (point field data), interpolation before mapping and scalar
    visibility on, and the range is the entry of [COLOR_RANGES]: [0, 100]
    for "U" and [-4464, 1700] for "p". *)
Theorem selection_sets_mapper_and_range (vehicle_vtk : list string)
    (triggered : list Trigger) (t : Trigger) (name : string) (rnd : float)
    (surfcolor : option string) :
  surfcolor_event triggered = Some t ->
  value t = Some name ->
  name = "solid" \/ name = "U" \/ name = "p" ->
  exists mapper range,
    update_scene vehicle_vtk triggered rnd surfcolor
    = Py.Return (Val (Render rnd)
                 :: replicate (length vehicle_vtk) (Val (MapperVal mapper))
                 ++ replicate (length vehicle_vtk) (Val (RangeVal range))) /\
    COLOR_RANGES !! name = Some range /\
    (name = "solid" ->
     mapper = {| colorByArrayName := None; scalarMode := None;
                 interpolateScalarsBeforeMapping := None;
                 scalarVisibility := Some false |} /\
     range = [0; 1]) /\
    (name <> "solid" ->
     mapper = {| colorByArrayName := Some name; scalarMode := Some 3;
                 interpolateScalarsBeforeMapping := Some true;
                 scalarVisibility := Some true |}) /\
    (name = "U" -> range = [0; 100]) /\
    (name = "p" -> range = [-4464; 1700]).
Proof.
  intros Ht Hv Hname. unfold update_scene, color_range_of. rewrite Ht, Hv.
  destruct color_ranges_table as (Hsolid & HU & Hp).
  destruct Hname as [-> | [-> | ->]];
    [rewrite Hsolid | rewrite HU | rewrite Hp]; cbn; rewrite !broadcast;
    eexists _, _; (split; [reflexivity|]); (split; [reflexivity|]);
    repeat split; done.
Qed.

Lemma selection_sets_mapper_and_range_witness :
  exists mapper,
    update_scene ["body"; "wheel"] (selection "p") 0.25 (Some "p")
    = Py.Return [Val (Render 0.25); Val (MapperVal mapper);
                 Val (MapperVal mapper); Val (RangeVal [-4464; 1700]);
                 Val (RangeVal [-4464; 1700])] /\
    colorByArrayName mapper = Some "p" /\ scalarVisibility mapper = Some true.
Proof.
  destruct (selection_sets_mapper_and_range ["body"; "wheel"] (selection "p")
              {| prop_id := "surfcolor.value"; value := Some "p" |} "p" 0.25
              (Some "p") eq_refl eq_refl (or_intror (or_intror eq_refl)))
    as (mapper & range & Hrun & _ & _ & Hmapper & _ & Hrange).
  exists mapper. rewrite Hrun, (Hrange eq_refl).
  split; [reflexivity|]. rewrite Hmapper by discriminate. split; reflexivity.
Defined.

(** ** The glyph of a probe that returns *)

(** C4. When a probe returns and the point data has a 3-component array,
    the glyph shows the last such array [a] in the mesh's order: with [v]
    its tuple at the point and [n] the Euclidean norm of [v] (the squares
    of the components, summed, to the power one half, in Python's float
    arithmetic), the height is [SCALE_U], which is 0.01, times [n], and the
    direction is [v] with each component divided by [n]. If that tuple is
    (3, 4, 0), and the C library's [pow] is exact on 3 and 4 squared and on
    the root of 25, the norm is 5 (formatted 5.00), the height 0.05 and the
    direction (0.6, 0.8, 0.0). *)
Theorem glyph_height_and_direction (vtk_datasets : gmap string Mesh)
    (info : option (gmap string JVal)) (mesh : Mesh) (idx : Z)
    (tooltip : Out (list string)) (cone : ConeState) (a : DataArray) :
  locate vtk_datasets info = Some (mesh, idx) ->
  probe_data vtk_datasets info = Py.Return (tooltip, Val cone) ->
  last_such is_vector3 (GetPointData mesh) = Some a ->
  (exists v n,
     GetTuple3 a idx = Py.Return v /\ euclidean_norm v n /\
     SCALE_U = 0.01%float /\
     height cone = Some (PrimFloat.mul SCALE_U n) /\
     direction cone
     = Some (PrimFloat.div v.1.1 n, PrimFloat.div v.1.2 n, PrimFloat.div v.2 n)) /\
  (GetTuple3 a idx = Py.Return (3, 4, 0)%float ->
   Py.c_pow 3 2 = 9%float -> Py.c_pow 4 2 = 16%float ->
   Py.c_pow 25 0.5 = 5%float ->
   euclidean_norm (3, 4, 0)%float 5 /\
   Py.format_2f 5 = "5.00" /\
   height cone = Some 0.05%float /\
   direction cone = Some (0.6, 0.8, 0)%float).
Proof.
  intros Hloc Hrun Ha. rewrite (probe_data_located _ _ _ _ Hloc) in Hrun.
  apply probe_located_glyph in Hrun as (point & _ & _ & Hvec & _).
  rewrite Ha in Hvec. destruct Hvec as [(v & n & Hv & Hn & _ & Hh & Hd) _].
  split.
  - exists v, n. apply norm3_euclidean in Hn. by repeat split.
  - intros Hv' H3 H4 H25. rewrite Hv' in Hv. injection Hv as <-.
    pose proof (norm3_3_4_0 H3 H4 H25) as Hn'.
    rewrite Hn' in Hn. injection Hn as <-.
    split; [by apply norm3_euclidean|]. repeat split; done.
Qed.

(** C5. When a probe returns, the glyph has a height exactly when the point
    data has a 3-component array; then the center is the probed point moved
    back, on each axis, by 0.5 * height * direction (the float product
    (0.5 * height) * direction, subtracted from the coordinate); otherwise
    the center is the probed point itself. *)
Theorem glyph_center (vtk_datasets : gmap string Mesh)
    (info : option (gmap string JVal)) (mesh : Mesh) (idx : Z)
    (tooltip : Out (list string)) (cone : ConeState) :
  locate vtk_datasets info = Some (mesh, idx) ->
  probe_data vtk_datasets info = Py.Return (tooltip, Val cone) ->
  exists point,
    GetPoint mesh idx = Py.Return point /\
    (is_Some (height cone)
     <-> is_Some (last_such is_vector3 (GetPointData mesh))) /\
    match height cone with
    | Some h =>
        exists d,
          direction cone = Some d /\
          center cone
          = Some (PrimFloat.sub point.1.1
                    (PrimFloat.mul (PrimFloat.mul 0.5 h) d.1.1),
                  PrimFloat.sub point.1.2
                    (PrimFloat.mul (PrimFloat.mul 0.5 h) d.1.2),
                  PrimFloat.sub point.2
                    (PrimFloat.mul (PrimFloat.mul 0.5 h) d.2))
    | None => center cone = Some point
    end.
Proof.
  intros Hloc Hrun. rewrite (probe_data_located _ _ _ _ Hloc) in Hrun.
  apply probe_located_glyph in Hrun as (point & Hpoint & _ & Hvec & _).
  exists point. split; [done|].
  destruct (last_such is_vector3 (GetPointData mesh)) as [a|].
  - destruct Hvec as [_ (h & d & Hh & Hd & Hc)]. rewrite Hh. split.
    + split; intros _; eauto.
    + exists d. split; [done|]. rewrite Hc. reflexivity.
  - destruct Hvec as (Hh & _ & Hc). rewrite Hh. split; [|done].
    split; intros [x Hx]; discriminate.
Qed.


(** ** The zero vector *)

Lemma read_Return (buf : list float) (i : Z) (x : float) :
  read buf i = Py.Return x -> (0 <= i)%Z /\ buf !! Z.to_nat i = Some x.
Proof.
  unfold read. destruct (Z.ltb_spec i 0); [discriminate|].
  destruct (buf !! Z.to_nat i); [|discriminate]. intros [= ->]. done.
Qed.

Lemma read_below (buf : list float) (i j : Z) (y : float) :
  (0 <= i <= j)%Z -> read buf j = Py.Return y ->
  exists x, read buf i = Py.Return x.
Proof.
  intros Hij Hj. apply read_Return in Hj as [_ Hj].
  apply lookup_lt_Some in Hj.
  destruct (lookup_lt_is_Some_2 buf (Z.to_nat i)) as [x Hx]; [lia|].
  exists x. unfold read. destruct (Z.ltb_spec i 0); [lia|]. by rewrite Hx.
Qed.

Lemma GetTuple3_GetValue (a : DataArray) (idx : Z) (v : Vec3) :
  (0 <= idx)%Z -> GetTuple3 a idx = Py.Return v ->
  exists x, GetValue a idx = Py.Return x.
Proof.
  unfold GetTuple3, GetValue. intros Hidx H.
  bind_inv H as x Hx. apply (read_below _ idx) in Hx; [done | lia].
Qed.

Lemma GetPoint_Return (mesh : Mesh) (idx : Z) (point : Vec3) :
  GetPoint mesh idx = Py.Return point -> (idx >? -1)%Z = true /\ (0 <= idx)%Z.
Proof.
  unfold GetPoint. destruct (Z.ltb_spec idx 0); [discriminate|].
  intros _. split; lia.
Qed.

(** The loop body on a 3-component array whose norm is zero. *)
Lemma probe_array_zero_norm (idx : Z) (a : DataArray)
    (st : ConeState * list string) (v : Vec3) (n : float) :
  (0 <= idx)%Z -> is_vector3 a = true ->
  GetTuple3 a idx = Py.Return v -> norm3 v = Py.Return n ->
  PrimFloat.eqb n 0 = true ->
  probe_array idx a st = Py.Raise Py.ZeroDivisionError.
Proof.
  intros Hidx Hvec Hv Hn Hz. destruct st as [cs msgs].
  destruct (GetTuple3_GetValue a idx v Hidx Hv) as [x Hx].
  unfold probe_array. unfold is_vector3 in Hvec.
  rewrite Hx. cbn. rewrite Hvec, Hv. cbn. rewrite Hn. cbn.
  by rewrite (normalized_zero v n Hz).
Qed.

(** C8. A probe that has found its point and reaches, without an exception
    from the arrays before it, a 3-component array whose tuple at the point
    has norm zero, raises [ZeroDivisionError]: the division by the norm is
    not guarded. *)
Theorem zero_norm_raises_ZeroDivisionError (vtk_datasets : gmap string Mesh)
    (info : option (gmap string JVal)) (mesh : Mesh) (idx : Z) (point : Vec3)
    (before after : list DataArray) (a : DataArray)
    (st : ConeState * list string) (v : Vec3) (n : float) :
  locate vtk_datasets info = Some (mesh, idx) ->
  GetPoint mesh idx = Py.Return point ->
  GetPointData mesh = (before ++ a :: after)%list ->
  Py.for_each (probe_array idx) before (with_center point initial_cone, [])
  = Py.Return st ->
  is_vector3 a = true ->
  GetTuple3 a idx = Py.Return v ->
  norm3 v = Py.Return n ->
  PrimFloat.eqb n 0 = true ->
  probe_data vtk_datasets info = Py.Raise Py.ZeroDivisionError.
Proof.
  intros Hloc Hpoint Harrays Hbefore Hvec Hv Hn Hz.
  rewrite (probe_data_located _ _ _ _ Hloc).
  destruct (GetPoint_Return _ _ _ Hpoint) as [Hfound Hidx].
  unfold probe_located, probe_point. rewrite Hfound, Hpoint. cbn.
  rewrite Harrays, for_each_app, Hbefore. cbn.
  by rewrite (probe_array_zero_norm idx a st v n).
Qed.


(** ** Part names *)

Lemma append_empty (s : string) : EmptyString +:+ s = s.
Proof. reflexivity. Qed.

Lemma append_String (c : ascii) (a b : string) :
  String c a +:+ b = String c (a +:+ b).
Proof. reflexivity. Qed.

Lemma split_nonempty (sep : ascii) (s : string) : Str.split sep s <> [].
Proof.
  destruct s as [|c s]; cbn; [done|].
  destruct (Ascii.eqb c sep); [done|]. by destruct (Str.split sep s).
Qed.

Lemma split_app (sep : ascii) (a b : string) :
  Str.split sep (a +:+ String sep b) = (Str.split sep a ++ Str.split sep b)%list.
Proof.
  induction a as [|c a IH]; [rewrite append_empty | rewrite append_String]; cbn.
  - by rewrite Ascii.eqb_refl.
  - rewrite IH. destruct (Ascii.eqb c sep); [done|].
    pose proof (split_nonempty sep a) as Hne.
    by destruct (Str.split sep a).
Qed.

Lemma split_no_sep (sep : ascii) (s : string) :
  Str.has_char sep s = false -> Str.split sep s = [s].
Proof.
  induction s as [|c s IH]; cbn; [done|].
  intros H. apply orb_false_iff in H as [Hc Hs].
  rewrite Hc, (IH Hs). done.
Qed.

Lemma split_pieces (sep : ascii) (s : string) :
  Forall (fun piece => Str.has_char sep piece = false) (Str.split sep s).
Proof.
  induction s as [|c s IH]; cbn.
  - by constructor.
  - destruct (Ascii.eqb c sep) eqn:Hc; [by constructor|].
    destruct (Str.split sep s) as [|piece pieces]; [by repeat constructor; cbn; rewrite Hc|].
    inversion IH as [|? ? Hpiece Hpieces]; subst.
    constructor; [|done]. cbn. by rewrite Hc, Hpiece.
Qed.

Lemma has_char_app (c : ascii) (a b : string) :
  Str.has_char c (a +:+ b) = (Str.has_char c a || Str.has_char c b)%bool.
Proof.
  induction a as [|c' a IH]; [done|].
  rewrite append_String. cbn. by rewrite IH, orb_assoc.
Qed.

Lemma remove_from_keeps_absent (c : ascii) (old : string) (s : string) :
  Str.has_char c s = false ->
  forall skip, Str.has_char c (Str.remove_from old skip s) = false.
Proof.
  induction s as [|c' s IH]; [done|].
  cbn [Str.has_char]. intros H skip. apply orb_false_iff in H as [Hc Hs].
  cbn [Str.remove_from]. destruct skip as [|k]; [|by apply IH].
  destruct (String.prefix old (String c' s)); [by apply IH|].
  cbn [Str.has_char]. by rewrite Hc, (IH Hs).
Qed.

Lemma prefix_other_head (c c' : ascii) (p s : string) :
  Ascii.eqb c' c = false -> String.prefix (String c p) (String c' s) = false.
Proof.
  intros H. cbn [String.prefix]. destruct (Ascii.ascii_dec c c') as [->|_]; [|done].
  by rewrite Ascii.eqb_refl in H.
Qed.

Lemma remove_vtp_suffix (name : string) :
  Str.has_char "." name = false ->
  Str.remove_all ".vtp" (name +:+ ".vtp") = name.
Proof.
  unfold Str.remove_all. induction name as [|c name IH]; [done|].
  rewrite append_String. cbn [Str.has_char Str.remove_from]. intros H.
  apply orb_false_iff in H as [Hc Hname].
  rewrite (prefix_other_head _ _ _ _ Hc). by rewrite (IH Hname).
Qed.

(** X1. The part name of [dir/name.vtp] is [name], whatever the directory,
    when [name] has neither a slash nor a dot. *)
Theorem part_name_of_vtp_file (dir name : string) :
  Str.has_char "/" name = false ->
  Str.has_char "." name = false ->
  part_name_of (dir +:+ "/" +:+ name +:+ ".vtp") = name.
Proof.
  intros Hslash Hdot. unfold part_name_of.
  change (dir +:+ "/" +:+ name +:+ ".vtp")
    with (dir +:+ String "/" (name +:+ ".vtp")).
  rewrite split_app, (split_no_sep "/" (name +:+ ".vtp")).
  - rewrite last_snoc. cbn [default]. by apply remove_vtp_suffix.
  - rewrite has_char_app, Hslash. done.
Qed.

Lemma part_name_of_vtp_file_witness :
  part_name_of "data/vehicle/body.vtp" = "body".
Proof.
  apply (part_name_of_vtp_file "data/vehicle" "body"); reflexivity.
Defined.

(** X2. A part name never contains a slash, whatever the path. *)
Theorem part_name_of_no_slash (filepath : string) :
  Str.has_char "/" (part_name_of filepath) = false.
Proof.
  unfold part_name_of, Str.remove_all.
  apply remove_from_keeps_absent.
  pose proof (split_pieces "/" filepath) as Hpieces.
  destruct (last (Str.split "/" filepath)) as [piece|] eqn:Hlast; [|done].
  apply last_Some in Hlast as [pieces Hlast]. rewrite Hlast in Hpieces.
  apply Forall_app in Hpieces as [_ Hpiece]. by inversion Hpiece.
Qed.

(** ** The scene after start-up *)

Section Populate.
Context {MeshState : Type}.
Variable reader : string -> Mesh.
Variable to_mesh_state :
  Mesh -> option string -> list string -> list string -> MeshState.

Lemma files_named_snoc (name : string) (filenames : list string) (f : string) :
  files_named name (filenames ++ [f])
  = if decide (part_name_of f = name) then (files_named name filenames ++ [f])%list
    else files_named name filenames.
Proof.
  unfold files_named. rewrite filter_app. cbn.
  case_decide; [done|]. by rewrite app_nil_r.
Qed.

Lemma populate_scene_inv (filenames : list string) :
  Forall2 (built_from reader to_mesh_state) filenames
    (populate_scene reader to_mesh_state filenames).2 /\
  forall name,
    (populate_scene reader to_mesh_state filenames).1 !! name
    = reader <$> last (files_named name filenames).
Proof.
  unfold populate_scene.
  induction filenames as [|f filenames [IHreps IHcache]] using rev_ind.
  - split; [constructor|]. intros name. cbn. apply lookup_empty.
  - rewrite foldl_snoc.
    destruct (foldl (load_part reader to_mesh_state) (∅, []) filenames)
      as [ds reps]. cbn in *. split.
    + apply Forall2_app; [done|]. by repeat constructor.
    + intros name. rewrite files_named_snoc. case_decide as Hname.
      * subst name. rewrite lookup_insert_eq, last_snoc. done.
      * rewrite lookup_insert_ne by done. apply IHcache.
Qed.

Lemma built_from_ids (filenames : list string)
    (reps : list (Scene.GeometryRepresentation MeshState)) :
  Forall2 (built_from reader to_mesh_state) filenames reps ->
  Scene.id <$> reps = part_name_of <$> filenames.
Proof.
  induction 1 as [|f rep fs reps' [Hid _] _ IH]; [done|].
  cbn. by rewrite Hid, IH.
Qed.

(** X3. After start-up there is one representation per listed file, in the
    listing's order, built from that file (its id is the file's part name,
    its state the mesh state of what the reader gave); and the keys of the
    mesh cache are exactly the ids of the representations. *)
Theorem populate_scene_ids (filenames : list string) :
  Forall2 (built_from reader to_mesh_state) filenames
    (populate_scene reader to_mesh_state filenames).2 /\
  forall name,
    is_Some ((populate_scene reader to_mesh_state filenames).1 !! name)
    <-> name ∈ Scene.id <$> (populate_scene reader to_mesh_state filenames).2.
Proof.
  destruct (populate_scene_inv filenames) as [Hreps Hcache].
  split; [done|]. intros name. rewrite Hcache.
  rewrite (built_from_ids _ _ Hreps).
  rewrite fmap_is_Some, last_is_Some. unfold files_named.
  rewrite list_elem_of_fmap. split.
  - intros Hne. destruct (filter _ filenames) as [|f fs] eqn:Hf; [done|].
    assert (f ∈ filter (fun f => part_name_of f = name) filenames) as Hin
      by (rewrite Hf; left).
    apply list_elem_of_filter in Hin as [Hname Hin]. by exists f.
  - intros (f & -> & Hin) Hnil.
    assert (f ∈ filter (fun f' => part_name_of f' = part_name_of f) filenames)
      as Hf by (by apply list_elem_of_filter).
    rewrite Hnil in Hf. by apply elem_of_nil in Hf.
Qed.

(** X4. The cache holds, under a part name, the mesh of the last listed
    file with that part name: a later file of the same name replaces the
    earlier one, and a name no file has is not a key. *)
Theorem populate_scene_cache (filenames : list string) (name : string) :
  (populate_scene reader to_mesh_state filenames).1 !! name
  = reader <$> last (files_named name filenames).
Proof. apply populate_scene_inv. Qed.

(** X5. A hover event that names the part of a listed file and carries a
    position of three numbers finds a cached mesh: [probe_data] goes on to
    the readout at the point the locator of that mesh answers, and the
    subscript of the cache does not raise. *)
Theorem probe_of_loaded_part (filenames : list string) (f : string)
    (info : option (gmap string JVal)) (d : gmap string JVal) (x y z : float) :
  f ∈ filenames ->
  truthy_info info = Some d ->
  d !! "representationId" = Some (JStr (part_name_of f)) ->
  d !! "worldPosition" = Some (JVec [x; y; z]) ->
  exists mesh,
    (populate_scene reader to_mesh_state filenames).1 !! part_name_of f
    = Some mesh /\
    probe_data (populate_scene reader to_mesh_state filenames).1 info
    = probe_located mesh (FindPoint mesh (x, y, z)).
Proof.
  intros Hin Hd Hid Hpos.
  destruct (populate_scene_inv filenames) as [_ Hcache].
  specialize (Hcache (part_name_of f)).
  destruct (last (files_named (part_name_of f) filenames)) as [g|] eqn:Hlast.
  - exists (reader g). split; [done|]. apply probe_data_located.
    unfold locate, world_position. by rewrite Hd, Hid, Hpos, Hcache.
  - apply last_None in Hlast.
    assert (f ∈ files_named (part_name_of f) filenames) as Hf
      by (by apply list_elem_of_filter).
    rewrite Hlast in Hf. by apply elem_of_nil in Hf.
Qed.

End Populate.

(** ** The outputs of [update_scene] *)

Lemma Forall2_fmap_both {A B C : Type} (P : B -> C -> Prop) (f : A -> B)
    (g : A -> C) (l : list A) :
  (forall x, P (f x) (g x)) -> Forall2 P (f <$> l) (g <$> l).
Proof. intros H. induction l; cbn; constructor; auto. Qed.

Lemma color_ranges_keys (name : string) :
  is_Some (COLOR_RANGES !! name) <-> name = "solid" \/ name = "U" \/ name = "p".
Proof.
  unfold COLOR_RANGES. rewrite !lookup_insert_is_Some, lookup_empty.
  split.
  - intros [ <- | [_ [ <- | [_ [ <- | [_ [x Hx]]]]]]]; auto. discriminate.
  - intros [ -> | [ -> | -> ]]; auto; right; (split; [done|]); auto;
      right; (split; [done|]); auto.
Qed.

(** X6. Whenever [update_scene] returns, it returns one value per output it
    is registered for (the render trigger, then the mapper of each part,
    then the color range of each part), each of the kind of its output;
    the first one is the drawn random number, never the no-update signal. *)
Theorem update_scene_outputs (vehicle_vtk : list string)
    (triggered : list Trigger) (rnd : float) (surfcolor : option string)
    (outs : list (Out SceneVal)) :
  update_scene vehicle_vtk triggered rnd surfcolor = Py.Return outs ->
  Forall2 fits (scene_outputs vehicle_vtk) outs /\
  length outs = (1 + 2 * length vehicle_vtk)%nat /\
  head outs = Some (Val (Render rnd)).
Proof.
  unfold update_scene. intros H. bind_inv H as st Hst.
  destruct st as [surf_state color_ranges]. injection H as <-.
  assert (Forall2 fits ((fun item => (item, "mapper")) <$> vehicle_vtk)
            surf_state /\
          Forall2 fits ((fun item => (item, "colorDataRange")) <$> vehicle_vtk)
            color_ranges) as [Hm Hr].
  { destruct (surfcolor_event triggered) as [t|].
    - bind_inv Hst as color_range Hrange. injection Hst as <- <-.
      split; apply Forall2_fmap_both; intros item; cbn; done.
    - injection Hst as <- <-.
      split; apply Forall2_fmap_both; intros item; cbn; auto. }
  split; [|split; [|done]].
  - unfold scene_outputs. cbn. constructor; [done|]. by apply Forall2_app.
  - apply Forall2_length in Hm, Hr. rewrite length_fmap in Hm, Hr.
    cbn. rewrite length_app. lia.
Qed.

Lemma update_scene_outputs_witness :
  Forall2 fits (scene_outputs ["body"; "wheel"])
    [Val (Render 0.5); NoUpdate; NoUpdate; NoUpdate; NoUpdate].
Proof.
  apply (update_scene_outputs ["body"; "wheel"] [] 0.5 None). reflexivity.
Defined.

(** X7. [update_scene] raises exactly when it was fired by the surfcolor
    input with a value that is none of "solid", "U" and "p" (null, for a
    cleared dropdown, is such a value), and in every other case it returns.
    For the values [Trigger] holds, a string or null, the exception is the
    [KeyError] of the subscript of [COLOR_RANGES]; a list or an object,
    which [Trigger] does not hold, would raise [TypeError] at the same
    subscript. *)
Theorem update_scene_raises_iff (vehicle_vtk : list string)
    (triggered : list Trigger) (rnd : float) (surfcolor : option string)
    (e : Py.exc) :
  update_scene vehicle_vtk triggered rnd surfcolor = Py.Raise e
  <-> e = Py.KeyError /\
      exists t, surfcolor_event triggered = Some t /\
                value t <> Some "solid" /\ value t <> Some "U" /\
                value t <> Some "p".
Proof.
  unfold update_scene, color_range_of.
  destruct (surfcolor_event triggered) as [t|]; cbn.
  - destruct (value t) as [name|] eqn:Hv.
    + destruct (COLOR_RANGES !! name) as [r|] eqn:Hr; cbn.
      * split; [discriminate|]. intros (_ & t' & Ht' & H1 & H2 & H3).
        injection Ht' as <-. rewrite Hv in H1, H2, H3.
        assert (is_Some (COLOR_RANGES !! name)) as Hs by eauto.
        apply color_ranges_keys in Hs as [ -> | [ -> | -> ]]; congruence.
      * split.
        -- intros [= <-]. split; [done|]. exists t. split; [done|].
           rewrite Hv.
           repeat split; intros [= ->]; vm_compute in Hr; discriminate.
        -- intros [-> _]. done.
    + split.
      * intros [= <-]. split; [done|]. exists t. rewrite Hv. by repeat split.
      * intros [-> _]. done.
  - split; [discriminate|]. intros (_ & t & Ht & _). discriminate.
Qed.


(** ** The test for the input that fired *)

Lemma prefix_iff (p s : string) :
  String.prefix p s = true <-> exists post, s = p +:+ post.
Proof.
  revert s. induction p as [|c p IH]; intros s.
  - split; [intros _; by exists s|]. intros _. by destruct s.
  - destruct s as [|c' s]; cbn [String.prefix].
    + split; [discriminate|]. intros [post Hpost]. discriminate.
    + destruct (Ascii.ascii_dec c c') as [<-|Hne].
      * rewrite IH. split; intros [post Hpost]; exists post.
        -- by rewrite append_String, Hpost.
        -- rewrite append_String in Hpost. by injection Hpost.
      * split; [discriminate|]. intros [post Hpost].
        rewrite append_String in Hpost. by injection Hpost as <-.
Qed.

Lemma contains_iff (needle hay : string) :
  Py.contains needle hay = true
  <-> exists pre post, hay = pre +:+ needle +:+ post.
Proof.
  split.
  - induction hay as [|c hay IH]; cbn [Py.contains]; intros H;
      apply orb_true_iff in H as [H|H].
    + apply prefix_iff in H as [post Hpost]. by exists EmptyString, post.
    + discriminate.
    + apply prefix_iff in H as [post Hpost]. by exists EmptyString, post.
    + destruct (IH H) as (pre & post & ->). by exists (String c pre), post.
  - intros (pre & post & ->). induction pre as [|c pre IH].
    + rewrite append_empty.
      assert (String.prefix needle (needle +:+ post) = true) as Hp
        by (apply prefix_iff; by exists post).
      destruct (needle +:+ post); cbn [Py.contains]; by rewrite Hp.
    + rewrite append_String. cbn [Py.contains]. rewrite IH. apply orb_true_r.
Qed.

(** X8. The callback takes itself to be fired by the dropdown exactly when
    the trigger list is not empty and the prop id of its first entry has
    "surfcolor" somewhere inside: a test for a substring, not for the id
    "surfcolor.value", and of the first entry only. *)
Theorem surfcolor_event_iff (triggered : list Trigger) (t : Trigger) :
  surfcolor_event triggered = Some t
  <-> exists rest pre post,
        triggered = t :: rest /\ prop_id t = pre +:+ "surfcolor" +:+ post.
Proof.
  unfold surfcolor_event. destruct triggered as [|t' rest].
  - split; [discriminate|]. intros (? & ? & ? & [=] & _).
  - destruct (Py.contains "surfcolor" (prop_id t')) eqn:Hc.
    + apply contains_iff in Hc as (pre & post & Hid). split.
      * intros [= <-]. by exists rest, pre, post.
      * intros (r & ? & ? & Heq & _). injection Heq as Heq _. by subst.
    + split; [discriminate|]. intros (r & pre & post & Heq & Hid).
      injection Heq as Heq _. subst t'.
      assert (Py.contains "surfcolor" (prop_id t) = true) as Ht
        by (apply contains_iff; by exists pre, post).
      congruence.
Qed.


(** ** What a hover event can lead to *)

Lemma probe_data_Return_located (vtk_datasets : gmap string Mesh)
    (info : option (gmap string JVal)) (d : gmap string JVal) (v : JVal)
    (r : Out (list string) * Out ConeState) :
  truthy_info info = Some d ->
  d !! "representationId" = Some v ->
  probe_data vtk_datasets info = Py.Return r ->
  exists mesh idx, locate vtk_datasets info = Some (mesh, idx).
Proof.
  intros Hd Hid. unfold probe_data, locate. rewrite Hd, Hid. intros H.
  bind_inv H as mesh Hmesh. bind_inv H as st Hst. clear H.
  unfold dataset_of in Hmesh. destruct v as [|name|]; try discriminate.
  destruct (vtk_datasets !! name) as [m|]; [|discriminate].
  injection Hmesh as ->. unfold truthy, probe_mesh in Hst.
  bind_inv Hst as xyx Hxyx. rewrite Hxyx. by eexists _, _.
Qed.

(** X9. Every glyph state [probe_data] returns has the resolution 12,
    whatever the event and the cache. *)
Theorem probe_data_resolution (vtk_datasets : gmap string Mesh)
    (info : option (gmap string JVal)) (tooltip : Out (list string))
    (cone : ConeState) :
  probe_data vtk_datasets info = Py.Return (tooltip, Val cone) ->
  resolution cone = 12.
Proof.
  intros H. destruct (truthy_info info) as [d|] eqn:Hd.
  - destruct (d !! "representationId") as [v|] eqn:Hid.
    + destruct (probe_data_Return_located _ _ _ _ _ Hd Hid H)
        as (mesh & idx & Hloc).
      rewrite (probe_data_located _ _ _ _ Hloc) in H.
      by apply probe_located_glyph in H as (_ & _ & Hres & _).
    + unfold probe_data in H. rewrite Hd, Hid in H. discriminate.
  - unfold probe_data in H. rewrite Hd in H. by injection H as _ <-.
Qed.

(** X10. The "no probe" result (the tooltip [['']] with the glyph state
    that has only a resolution) is returned for the events that are false
    under [if info:] and for no other: when an event that is true leads to
    a tooltip and a glyph state, the glyph has a center. *)
Theorem no_probe_only_for_false_events (vtk_datasets : gmap string Mesh)
    (info : option (gmap string JVal)) (tooltip : list string)
    (cone : ConeState) :
  probe_data vtk_datasets info = Py.Return (Val tooltip, Val cone) ->
  (truthy_info info = None /\ tooltip = [EmptyString] /\ cone = initial_cone) \/
  (is_Some (truthy_info info) /\ is_Some (center cone)).
Proof.
  intros H. destruct (truthy_info info) as [d|] eqn:Hd.
  - right. split; [eauto|].
    destruct (d !! "representationId") as [v|] eqn:Hid.
    + destruct (probe_data_Return_located _ _ _ _ _ Hd Hid H)
        as (mesh & idx & Hloc).
      rewrite (probe_data_located _ _ _ _ Hloc) in H.
      apply probe_located_glyph in H as (point & _ & _ & Hvec & _).
      destruct (last_such is_vector3 (GetPointData mesh)).
      * destruct Hvec as [_ (h & dir & _ & _ & Hc)]. rewrite Hc. eauto.
      * destruct Hvec as (_ & _ & Hc). rewrite Hc. eauto.
    + unfold probe_data in H. rewrite Hd, Hid in H. discriminate.
  - left. unfold probe_data in H. rewrite Hd in H. by injection H as <- <-.
Qed.

(** ** The lines of the tooltip *)

Lemma probe_array_message (idx : Z) (a : DataArray) (cs cs' : ConeState)
    (msgs msgs' : list string) :
  probe_array idx a (cs, msgs) = Py.Return (cs', msgs') ->
  exists message, msgs' = (msgs ++ [message])%list /\ shows_message idx a message.
Proof.
  unfold probe_array, shows_message, is_vector3. intros H.
  bind_inv H as value Hvalue. bind_inv H as shown Hshown.
  bind_inv H as st1 H1. destruct st1 as [[cs1 vs] ns].
  bind_inv H as cs2 H2. injection H as _ <-.
  eexists. split; [reflexivity|]. exists shown. split; [done|].
  destruct (GetNumberOfComponents a =? 3)%Z.
  - bind_inv H1 as v Hv. bind_inv H1 as n Hn. bind_inv H1 as dir Hdir.
    injection H1 as _ <- <-. exists v, n. apply norm3_euclidean in Hn.
    destruct v as [[v0 v1] v2]. done.
  - by injection H1 as _ <- <-.
Qed.

Lemma probe_loop_messages (idx : Z) (arrays : list DataArray) :
  forall (cs cs' : ConeState) (msgs msgs' : list string),
    Py.for_each (probe_array idx) arrays (cs, msgs) = Py.Return (cs', msgs') ->
    exists new,
      msgs' = (msgs ++ new)%list /\ Forall2 (shows_message idx) arrays new.
Proof.
  induction arrays as [|a arrays IH]; intros cs cs' msgs msgs' H.
  - injection H as _ <-. exists []. by rewrite app_nil_r.
  - cbn in H. bind_inv H as st Hstep. destruct st as [cs1 msgs1].
    apply probe_array_message in Hstep as (message & -> & Hmessage).
    apply IH in H as (new & -> & Hnew).
    exists (message :: new). rewrite <- app_assoc. split; [done|].
    by constructor.
Qed.

(** X11. The tooltip of a probe that returns is one string: the lines of
    the point data arrays, one per array and in the mesh's order, joined by
    line feeds. The line of an array is its name, ": ", and then either the
    value at the index with two decimals and a space, or, for a
    3-component array, the three components with two decimals separated by
    ", ", two spaces and "norm(n)" with the norm in two decimals. *)
Theorem tooltip_lines (vtk_datasets : gmap string Mesh)
    (info : option (gmap string JVal)) (mesh : Mesh) (idx : Z)
    (tooltip : Out (list string)) (cone : Out ConeState) :
  locate vtk_datasets info = Some (mesh, idx) ->
  probe_data vtk_datasets info = Py.Return (tooltip, cone) ->
  exists lines,
    tooltip = Val [Py.join Py.newline lines] /\
    Forall2 (shows_message idx) (GetPointData mesh) lines.
Proof.
  intros Hloc H. rewrite (probe_data_located _ _ _ _ Hloc) in H.
  apply probe_located_Return in H
    as (point & cs & msgs & cs' & _ & _ & Hloop & _ & -> & _).
  apply probe_loop_messages in Hloop as (new & -> & Hnew).
  by exists new.
Qed.


(** ** When the readout returns *)

Lemma GetPoint_iff (mesh : Mesh) (idx : Z) :
  (exists point, GetPoint mesh idx = Py.Return point)
  <-> (0 <= idx < Z.of_nat (length (GetPoints mesh)))%Z.
Proof.
  unfold GetPoint. destruct (Z.ltb_spec idx 0).
  - split; [intros [? [=]] | lia].
  - destruct (GetPoints mesh !! Z.to_nat idx) as [p|] eqn:Hp.
    + apply lookup_lt_Some in Hp. split; [lia | eauto].
    + apply lookup_ge_None in Hp. split; [intros [? [=]] | lia].
Qed.

Lemma probe_array_Return_iff (idx : Z) (a : DataArray)
    (st : ConeState * list string) :
  (exists st', probe_array idx a st = Py.Return st') <-> readable idx a = true.
Proof.
  destruct st as [cs msgs]. unfold probe_array, readable, is_vector3.
  destruct (GetValue a idx) as [x|e]; cbn; [|split; [intros [? [=]] | done]].
  destruct (GetNumberOfComponents a =? 3)%Z; cbn.
  - destruct (GetTuple3 a idx) as [v|e]; cbn; [|split; [intros [? [=]] | done]].
    destruct (norm3 v) as [n|e]; cbn; [|split; [intros [? [=]] | done]].
    destruct (PrimFloat.eqb n 0) eqn:Hz; cbn.
    + rewrite (normalized_zero v n Hz). cbn. split; [intros [? [=]] | done].
    + assert (normalized v n = Py.Return (scaled_down v n)) as ->.
      { destruct v as [[v0 v1] v2]. unfold normalized, Py.fdiv. by rewrite Hz. }
      cbn. split; [done|]. intros _.
      destruct (bool_decide (GetName a = "p")); cbn; eauto.
  - split; [done|]. intros _.
    destruct (bool_decide (GetName a = "p")); cbn; eauto.
Qed.

Lemma probe_loop_Return_iff (idx : Z) (arrays : list DataArray) :
  forall st : ConeState * list string,
    (exists st', Py.for_each (probe_array idx) arrays st = Py.Return st')
    <-> forallb (readable idx) arrays = true.
Proof.
  induction arrays as [|a arrays IH]; intros st; cbn.
  - split; eauto.
  - rewrite andb_true_iff, <- (probe_array_Return_iff idx a st). split.
    + intros [st' H]. bind_inv H as st1 Hstep. split; [eauto|].
      apply (IH st1). eauto.
    + intros [[st1 Hstep] Hrest]. rewrite Hstep. cbn. by apply IH.
Qed.

(** X12. For an event that resolves to a mesh and an id, [probe_data]
    returns a tooltip and a glyph state exactly when the id is the id of a
    point of the mesh and every point data array can be read at the id and,
    if it has three components, has a norm there that is computed and is not
    zero. In every other case the callback raises. *)
Theorem probe_returns_iff (vtk_datasets : gmap string Mesh)
    (info : option (gmap string JVal)) (mesh : Mesh) (idx : Z) :
  locate vtk_datasets info = Some (mesh, idx) ->
  (exists tooltip cone,
     probe_data vtk_datasets info = Py.Return (Val tooltip, Val cone))
  <-> (0 <= idx < Z.of_nat (length (GetPoints mesh)))%Z /\
      forallb (readable idx) (GetPointData mesh) = true.
Proof.
  intros Hloc. rewrite (probe_data_located _ _ _ _ Hloc).
  rewrite <- GetPoint_iff. split.
  - intros (tooltip & cone & H).
    apply probe_located_Return in H
      as (point & cs & msgs & cs' & _ & Hpoint & Hloop & _).
    split; [eauto|]. eapply probe_loop_Return_iff. eauto.
  - intros [[point Hpoint] Hread].
    destruct (proj2 (probe_loop_Return_iff idx (GetPointData mesh)
                       (with_center point initial_cone, [])) Hread)
      as [[cs msgs] Hloop].
    destruct (GetPoint_Return _ _ _ Hpoint) as [Hfound _].
    unfold probe_located, probe_point. rewrite Hfound, Hpoint. cbn.
    rewrite Hloop. cbn.
    apply probe_loop_fields in Hloop as (_ & Hcen & Hvec & _).
    unfold vector_part in Hvec. cbn in Hcen, Hvec.
    unfold recenter. destruct point as [[c0 c1] c2].
    destruct (last_such is_vector3 (GetPointData mesh)).
    + destruct Hvec as (v & n & _ & _ & _ & Hh & Hd).
      rewrite Hh, Hcen, Hd. destruct v as [[v0 v1] v2]. cbn. eauto.
    + destruct Hvec as [Hh _]. rewrite Hh. cbn. eauto.
Qed.

(** X13. An exception raised while the norm of a 3-component array is
    computed (the [OverflowError] of a component whose square is out of
    range) is the outcome of the whole callback, when the probe has found
    its point and the arrays before that one raised nothing: neither a
    tooltip nor a glyph state is emitted. *)
Theorem norm_exception_aborts_probe (vtk_datasets : gmap string Mesh)
    (info : option (gmap string JVal)) (mesh : Mesh) (idx : Z) (point : Vec3)
    (before after : list DataArray) (a : DataArray) (v : Vec3) (e : Py.exc) :
  locate vtk_datasets info = Some (mesh, idx) ->
  GetPoint mesh idx = Py.Return point ->
  GetPointData mesh = (before ++ a :: after)%list ->
  forallb (readable idx) before = true ->
  is_vector3 a = true ->
  GetTuple3 a idx = Py.Return v ->
  norm3 v = Py.Raise e ->
  probe_data vtk_datasets info = Py.Raise e.
Proof.
  intros Hloc Hpoint Harrays Hbefore Hvec Hv Hn.
  rewrite (probe_data_located _ _ _ _ Hloc).
  destruct (GetPoint_Return _ _ _ Hpoint) as [Hfound Hidx].
  destruct (proj2 (probe_loop_Return_iff idx before
                     (with_center point initial_cone, [])) Hbefore)
    as [[cs msgs] Hloop].
  destruct (GetTuple3_GetValue a idx v Hidx Hv) as [x Hx].
  unfold probe_located, probe_point. rewrite Hfound, Hpoint. cbn.
  rewrite Harrays, for_each_app, Hloop. cbn.
  unfold probe_array. unfold is_vector3 in Hvec.
  rewrite Hx. cbn. rewrite Hvec, Hv. cbn. by rewrite Hn.
Qed.


(** ** Vectors with a NaN *)

Lemma is_nan_eq (x : float) : PrimFloat.is_nan x = true -> x = nan.
Proof.
  unfold is_nan. rewrite FloatAxioms.eqb_spec. intros H.
  apply Prim2SF_inj. change (Prim2SF nan) with SpecFloat.S754_nan.
  destruct (Prim2SF x) as [sg|sg| |sg m e]; try reflexivity; exfalso.
  - destruct sg; discriminate.
  - destruct sg; discriminate.
  - unfold SpecFloat.SFeqb, SpecFloat.SFcompare in H.
    destruct sg; rewrite Z.compare_refl, Pos.compare_cont_refl in H;
      discriminate.
Qed.

Lemma fadd_nan_l (y : float) : Py.fadd nan y = nan.
Proof.
  apply Prim2SF_inj. unfold Py.fadd. rewrite add_spec.
  change (Prim2SF nan) with SpecFloat.S754_nan. reflexivity.
Qed.

Lemma fadd_nan_r (y : float) : Py.fadd y nan = nan.
Proof.
  apply Prim2SF_inj. unfold Py.fadd. rewrite add_spec.
  change (Prim2SF nan) with SpecFloat.S754_nan.
  destruct (Prim2SF y); reflexivity.
Qed.

Lemma fmul_nan_r (y : float) : Py.fmul y nan = nan.
Proof.
  apply Prim2SF_inj. unfold Py.fmul. rewrite mul_spec.
  change (Prim2SF nan) with SpecFloat.S754_nan.
  destruct (Prim2SF y); reflexivity.
Qed.

Lemma div_nan_r (y : float) : PrimFloat.div y nan = nan.
Proof.
  apply Prim2SF_inj. rewrite div_spec.
  change (Prim2SF nan) with SpecFloat.S754_nan.
  destruct (Prim2SF y); reflexivity.
Qed.

Lemma pow_2_nan (x a : float) :
  PrimFloat.is_nan x = true -> Py.pow_2 x = Py.Return a -> a = nan.
Proof.
  intros Hx. unfold Py.pow_2. rewrite Hx. intros [= <-]. by apply is_nan_eq.
Qed.

Lemma norm3_nan (v : Vec3) (n : float) :
  has_nan v = true -> norm3 v = Py.Return n -> n = nan.
Proof.
  destruct v as [[v0 v1] v2]. unfold has_nan, norm3. cbn [fst snd].
  intros Hnan H. bind_inv H as a Ha. bind_inv H as b Hb. bind_inv H as c Hc.
  assert (Py.fadd (Py.fadd a b) c = nan) as Hsum.
  { apply orb_true_iff in Hnan as [Hnan|H2].
    - apply orb_true_iff in Hnan as [H0|H1].
      + rewrite (pow_2_nan _ _ H0 Ha). by rewrite !fadd_nan_l.
      + rewrite (pow_2_nan _ _ H1 Hb). by rewrite fadd_nan_r, fadd_nan_l.
    - rewrite (pow_2_nan _ _ H2 Hc). by rewrite fadd_nan_r. }
  rewrite Hsum in H. by injection H as <-.
Qed.

(** X15. A NaN among the three components of the vector that the glyph
    shows does not make the probe raise (a NaN is not equal to zero, so the
    division goes through): the glyph of a probe that returns has NaN as
    its height and as each component of its direction. *)
Theorem nan_vector_gives_nan_glyph (vtk_datasets : gmap string Mesh)
    (info : option (gmap string JVal)) (mesh : Mesh) (idx : Z)
    (tooltip : Out (list string)) (cone : ConeState) (a : DataArray)
    (v : Vec3) :
  locate vtk_datasets info = Some (mesh, idx) ->
  probe_data vtk_datasets info = Py.Return (tooltip, Val cone) ->
  last_such is_vector3 (GetPointData mesh) = Some a ->
  GetTuple3 a idx = Py.Return v ->
  has_nan v = true ->
  height cone = Some nan /\ direction cone = Some (nan, nan, nan).
Proof.
  intros Hloc Hrun Ha Hv Hnan.
  rewrite (probe_data_located _ _ _ _ Hloc) in Hrun.
  apply probe_located_glyph in Hrun as (point & _ & _ & Hvec & _).
  rewrite Ha in Hvec. destruct Hvec as [(v' & n & Hv' & Hn & _ & Hh & Hd) _].
  rewrite Hv in Hv'. injection Hv' as <-.
  rewrite (norm3_nan v n Hnan Hn) in Hh, Hd.
  rewrite Hh, Hd. unfold scaled_down. by rewrite fmul_nan_r, !div_nan_r.
Qed.

(** ** File names with [.vtp] inside *)

Lemma remove_from_skip (old : string) (k : nat) (c : ascii) (s : string) :
  Str.remove_from old (S k) (String c s) = Str.remove_from old k s.
Proof. reflexivity. Qed.

Lemma remove_from_hit (old : string) (c : ascii) (s : string) :
  String.prefix old (String c s) = true ->
  Str.remove_from old 0 (String c s)
  = Str.remove_from old (String.length old - 1) s.
Proof. intros H. cbn [Str.remove_from]. by rewrite H. Qed.

Lemma remove_vtp_inner (a rest : string) :
  Str.has_char "." a = false ->
  Str.remove_all ".vtp" (a +:+ ".vtp" +:+ rest)
  = a +:+ Str.remove_all ".vtp" rest.
Proof.
  unfold Str.remove_all. induction a as [|c a IH].
  { intros _. rewrite !append_empty, !append_String, append_empty.
    rewrite remove_from_hit by (apply prefix_iff; by exists rest).
    change (String.length ".vtp" - 1)%nat with 3%nat.
    by rewrite !remove_from_skip. }
  rewrite (append_String c a (".vtp" +:+ rest)),
    (append_String c a (Str.remove_from ".vtp" 0 rest)).
  cbn [Str.has_char Str.remove_from]. intros H.
  apply orb_false_iff in H as [Hc Ha].
  rewrite (prefix_other_head _ _ _ _ Hc). by rewrite (IH Ha).
Qed.

(** X16. [.vtp] is removed wherever it occurs in the file name, not only
    as its extension: the part name of [dir/a.vtp] followed by [rest] is
    [a] followed by [rest] without its occurrences of [.vtp], when [a] has
    neither a slash nor a dot and [rest] has no slash. *)
Theorem part_name_of_inner_vtp (dir a rest : string) :
  Str.has_char "/" a = false ->
  Str.has_char "." a = false ->
  Str.has_char "/" rest = false ->
  part_name_of (dir +:+ "/" +:+ a +:+ ".vtp" +:+ rest)
  = a +:+ Str.remove_all ".vtp" rest.
Proof.
  intros Hslash Hdot Hrest. unfold part_name_of.
  change (dir +:+ "/" +:+ a +:+ ".vtp" +:+ rest)
    with (dir +:+ String "/" (a +:+ ".vtp" +:+ rest)).
  rewrite split_app, (split_no_sep "/" (a +:+ ".vtp" +:+ rest)).
  - rewrite last_snoc. cbn [default]. by apply remove_vtp_inner.
  - rewrite !has_char_app, Hslash, Hrest. done.
Qed.

Lemma part_name_of_inner_vtp_witness :
  part_name_of "data/vehicle/wing.vtp.old.vtp" = "wing.old".
Proof.
  apply (part_name_of_inner_vtp "data/vehicle" "wing" ".old.vtp");
    reflexivity.
Defined.

End Probe.

(** ** The callbacks on the sample data, with the sample C library *)

#[export] Existing Instance rounded_libm.

Example probe_sample_point_0 :
  probe_data (cache (mesh_at 0 [U_array; p_array; k_array])) (hover "body")
  = Py.Return
      (Val ["U: 3.00, 4.00, 0.00  norm(5.00)" +:+ Py.newline
            +:+ "p: 1000.00 " +:+ Py.newline +:+ "k: 2.50 "],
       Val {| resolution := 12;
              center := Some (Py.fsub 1 (Py.fmul (Py.fmul 0.5 0.05) 0.6),
                              Py.fsub 2 (Py.fmul (Py.fmul 0.5 0.05) 0.8),
                              3%float);
              height := Some 0.05%float;
              direction := Some (0.6, 0.8, 0)%float;
              radius := Some 0.1%float |}).
Proof. reflexivity. Qed.

Example probe_sample_scalars_only :
  probe_data (cache (mesh_at 1 [k_array; p_array])) (hover "body")
  = Py.Return
      (Val ["k: 1.00 " +:+ Py.newline +:+ "p: 7.00 "],
       Val {| resolution := 12; center := Some (4, 5, 6)%float;
              height := None; direction := None;
              radius := Some (Py.fmul 7 SCALE_P) |}).
Proof. reflexivity. Qed.

Lemma unknown_part_raises_KeyError_witness :
  probe_data (cache (mesh_at 0 [U_array; p_array])) (hover "wheel")
  = Py.Raise Py.KeyError.
Proof.
  apply (unknown_part_raises_KeyError _ _
           (<["representationId" := JStr "wheel"]>
              (<["worldPosition" := JVec [1; 2; 3]%float]> ∅)) "wheel");
    vm_compute; reflexivity.
Defined.

Lemma point_not_found_raises_UnboundLocalError_witness :
  probe_data (cache empty_mesh) (hover "body") = Py.Raise Py.UnboundLocalError.
Proof.
  apply (point_not_found_raises_UnboundLocalError _ _ empty_mesh).
  vm_compute. reflexivity.
Defined.

(** C10 (as stated) fails for the empty payload: it is present, it has no
    'representationId', and [if info:] is false for it, so the callback
    returns the "no probe" result rather than the no-update signal. *)
Lemma empty_payload_is_no_probe :
  (∅ : gmap string JVal) !! "representationId" = None /\
  probe_data ∅ (Some ∅) = Py.Return (Val [EmptyString], Val initial_cone) /\
  probe_data ∅ (Some ∅) <> Py.Return (NoUpdate, NoUpdate).
Proof. split; [reflexivity|]. split; [reflexivity|]. discriminate. Qed.

Lemma no_part_identity_no_update_witness :
  probe_data (cache empty_mesh) (Some (<["ray" := JNull]> ∅))
  = Py.Return (NoUpdate, NoUpdate).
Proof.
  apply (no_part_identity_no_update (cache empty_mesh) (<["ray" := JNull]> ∅)).
  - vm_compute. discriminate.
  - vm_compute. reflexivity.
Defined.

Lemma glyph_height_and_direction_witness :
  (exists tooltip cone,
     probe_data (cache (mesh_at 0 [U_array; p_array; k_array])) (hover "body")
     = Py.Return (tooltip, Val cone) /\
     height cone = Some 0.05%float /\
     direction cone = Some (0.6, 0.8, 0)%float) /\
  (exists tooltip cone,
     probe_data
       (cache (mesh_at 0 [U_array;
                          {| GetName := "W"; GetNumberOfComponents := 3;
                             buffer := [1; 2; 2]%float |}]))
       (hover "body")
     = Py.Return (tooltip, Val cone) /\
     height cone = Some 0.03%float /\
     direction cone
     = Some (PrimFloat.div 1 3, PrimFloat.div 2 3, PrimFloat.div 2 3)).
Proof.
  split.
  - eexists _, _. split; [reflexivity|].
    refine (let H := glyph_height_and_direction
                       (cache (mesh_at 0 [U_array; p_array; k_array]))
                       (hover "body") (mesh_at 0 [U_array; p_array; k_array])
                       0 _ _ U_array eq_refl eq_refl eq_refl in _).
    destruct H as [_ H].
    destruct (H eq_refl eq_refl eq_refl eq_refl) as (_ & _ & Hh & Hd).
    split; [exact Hh | exact Hd].
  - eexists _, _. split; [reflexivity|].
    refine (let H := glyph_height_and_direction
                       (cache (mesh_at 0 [U_array;
                                          {| GetName := "W";
                                             GetNumberOfComponents := 3;
                                             buffer := [1; 2; 2]%float |}]))
                       (hover "body")
                       (mesh_at 0 [U_array;
                                   {| GetName := "W";
                                      GetNumberOfComponents := 3;
                                      buffer := [1; 2; 2]%float |}])
                       0 _ _
                       {| GetName := "W"; GetNumberOfComponents := 3;
                          buffer := [1; 2; 2]%float |}
                       eq_refl eq_refl eq_refl in _).
    destruct H as [(v & n & Hv & (a & b & c & Ha & Hb & Hc & Hn) & _ & Hh & Hd) _].
    injection Hv as <-. injection Ha as <-. injection Hb as <-.
    injection Hc as <-. injection Hn as <-.
    split; [exact Hh | exact Hd].
Defined.

Lemma glyph_center_witness :
  (exists tooltip cone,
     probe_data (cache (mesh_at 0 [U_array; p_array; k_array])) (hover "body")
     = Py.Return (tooltip, Val cone) /\
     center cone = Some (0.985, 1.98, 3)%float) /\
  (exists tooltip cone,
     probe_data (cache (mesh_at 0 [p_array; k_array])) (hover "body")
     = Py.Return (tooltip, Val cone) /\
     center cone = Some (1, 2, 3)%float).
Proof.
  split.
  - eexists _, _. split; [reflexivity|].
    refine (let H := glyph_center
                       (cache (mesh_at 0 [U_array; p_array; k_array]))
                       (hover "body") (mesh_at 0 [U_array; p_array; k_array])
                       0 _ _ eq_refl eq_refl in _).
    destruct H as (point & Hpoint & _ & d & Hd & Hc).
    injection Hpoint as <-. injection Hd as <-. exact Hc.
  - eexists _, _. split; [reflexivity|].
    refine (let H := glyph_center (cache (mesh_at 0 [p_array; k_array]))
                       (hover "body") (mesh_at 0 [p_array; k_array]) 0 _ _
                       eq_refl eq_refl in _).
    destruct H as (point & Hpoint & _ & Hc). injection Hpoint as <-. exact Hc.
Defined.


Lemma zero_norm_raises_ZeroDivisionError_witness :
  norm3 (0, 0, 0)%float = Py.Return 0%float /\
  probe_data (cache (mesh_at 1 [k_array; U_array; p_array])) (hover "body")
  = Py.Raise Py.ZeroDivisionError.
Proof.
  split; [reflexivity|].
  apply (zero_norm_raises_ZeroDivisionError
           (cache (mesh_at 1 [k_array; U_array; p_array])) (hover "body")
           (mesh_at 1 [k_array; U_array; p_array]) 1 (4, 5, 6)%float
           [k_array] [p_array] U_array
           (with_center (4, 5, 6)%float initial_cone, ["k: 1.00 "])
           (0, 0, 0)%float 0%float); reflexivity.
Defined.

Lemma probe_of_loaded_part_witness :
  exists mesh,
    (populate_scene (fun _ => mesh_at 0 [U_array; p_array])
       (fun _ _ _ _ => tt) ["data/vehicle/body.vtp"]).1 !! "body" = Some mesh /\
    probe_data
      (populate_scene (fun _ => mesh_at 0 [U_array; p_array])
         (fun _ _ _ _ => tt) ["data/vehicle/body.vtp"]).1
      (hover "body")
    = probe_located mesh (FindPoint mesh (1, 2, 3)%float).
Proof.
  apply (probe_of_loaded_part (fun _ => mesh_at 0 [U_array; p_array])
           (fun _ _ _ _ => tt) ["data/vehicle/body.vtp"]
           "data/vehicle/body.vtp" (hover "body")
           (<["representationId" := JStr "body"]>
              (<["worldPosition" := JVec [1; 2; 3]%float]> ∅))
           1%float 2%float 3%float).
  - left.
  - vm_compute. reflexivity.
  - vm_compute. reflexivity.
  - vm_compute. reflexivity.
Defined.

Lemma probe_data_resolution_witness :
  resolution {| resolution := 12; center := Some (4, 5, 6)%float;
                height := None; direction := None;
                radius := Some (Py.fmul 7 SCALE_P) |} = 12.
Proof.
  apply (probe_data_resolution (cache (mesh_at 1 [k_array; p_array]))
           (hover "body")
           (Val ["k: 1.00 " +:+ Py.newline +:+ "p: 7.00 "])).
  reflexivity.
Defined.

Lemma no_probe_only_for_false_events_witness :
  (truthy_info (Some ∅) = None /\ [EmptyString] = [EmptyString] /\
   initial_cone = initial_cone) \/
  (is_Some (truthy_info (Some ∅)) /\ is_Some (center initial_cone)).
Proof.
  apply (no_probe_only_for_false_events ∅ (Some ∅) [EmptyString] initial_cone).
  reflexivity.
Defined.

Lemma tooltip_lines_witness :
  exists lines,
    Val ["U: 3.00, 4.00, 0.00  norm(5.00)" +:+ Py.newline +:+ "p: 1000.00 "]
    = Val [Py.join Py.newline lines] /\
    Forall2 (shows_message 0) [U_array; p_array] lines.
Proof.
  apply (tooltip_lines (cache (mesh_at 0 [U_array; p_array])) (hover "body")
           (mesh_at 0 [U_array; p_array]) 0 _
           (Val {| resolution := 12; center := Some (0.985, 1.98, 3)%float;
                   height := Some 0.05%float;
                   direction := Some (0.6, 0.8, 0)%float;
                   radius := Some 0.1%float |}));
    reflexivity.
Defined.

Lemma probe_returns_iff_witness :
  (exists tooltip cone,
     probe_data (cache (mesh_at 1 [U_array; p_array])) (hover "body")
     = Py.Return (Val tooltip, Val cone))
  <-> (0 <= 1 < Z.of_nat (length (GetPoints (mesh_at 1 [U_array; p_array]))))%Z /\
      forallb (readable 1) (GetPointData (mesh_at 1 [U_array; p_array])) = true.
Proof.
  apply (probe_returns_iff (cache (mesh_at 1 [U_array; p_array]))
           (hover "body") (mesh_at 1 [U_array; p_array]) 1).
  reflexivity.
Defined.

Lemma norm_exception_aborts_probe_witness :
  probe_data
    (cache (mesh_at 0 [p_array;
                       {| GetName := "W"; GetNumberOfComponents := 3;
                          buffer := [1e200; 0; 0]%float |}]))
    (hover "body")
  = Py.Raise Py.OverflowError.
Proof.
  apply (norm_exception_aborts_probe _ (hover "body")
           (mesh_at 0 [p_array;
                       {| GetName := "W"; GetNumberOfComponents := 3;
                          buffer := [1e200; 0; 0]%float |}])
           0 (1, 2, 3)%float [p_array] []
           {| GetName := "W"; GetNumberOfComponents := 3;
              buffer := [1e200; 0; 0]%float |}
           (1e200, 0, 0)%float); reflexivity.
Defined.

Lemma nan_vector_gives_nan_glyph_witness :
  exists tooltip cone,
    probe_data
      (cache (mesh_at 0 [{| GetName := "U"; GetNumberOfComponents := 3;
                            buffer := [nan; 1; 2]%float |}]))
      (hover "body")
    = Py.Return (tooltip, Val cone) /\
    height cone = Some nan /\ direction cone = Some (nan, nan, nan).
Proof.
  eexists _, _. split; [reflexivity|].
  eapply (nan_vector_gives_nan_glyph
           (cache (mesh_at 0 [{| GetName := "U"; GetNumberOfComponents := 3;
                                 buffer := [nan; 1; 2]%float |}]))
           (hover "body")
           (mesh_at 0 [{| GetName := "U"; GetNumberOfComponents := 3;
                          buffer := [nan; 1; 2]%float |}])
           0 _ _
           {| GetName := "U"; GetNumberOfComponents := 3;
              buffer := [nan; 1; 2]%float |}
           (nan, 1, 2)%float); reflexivity.
Defined.
